(* ===== verification/_CoqProject ===== *)
-Q . S2P
Prelude.v
GoUrl.v
GoRuntime.v
Bufio.v
Flag.v
Webfetch.v
