(* ===== verification/Prelude.v ===== *)
(** * webfetch in Rocq: a verification development of TunedMystic/webfetch

    The program ([src/main.go], 87 lines) fetches a URL and writes the
    response body, followed by one newline, to standard output or to a new
    file named by the [-o] flag.  It is a straight-line pipeline of five
    steps, each of which either continues or ends the process with
    [os.Exit(1)]:

    - argument resolution: [flag.String("o", ...)] and [flag.Parse()]
      (Go's [flag] package), then the check [flag.NArg() != 1];
    - URL validation: [url.ParseRequestURI(flag.Args()[0])] (Go's
      [net/url]);
    - output resolution: [getWriter] (main.go lines 15-35): standard output
      when the path is empty, otherwise [os.Stat] refuses an existing path
      and [os.Create] makes the file; both wrapped in a [bufio.Writer];
    - fetching: [http.Get(dataURL.String())] and [ioutil.ReadAll] of the
      body, with [defer response.Body.Close()] registered after the read;
    - writing: [writeContents] (lines 39-43): two [bufio.Writer.Write]
      calls and a deferred [Flush].

    ** Files of the development (in dependency order)

    - [Prelude.v] (this file): the byte and string vocabulary, the state
      and exit monad [ST] in which every Go function of the model is
      written (an [Exited] outcome is [os.Exit]: it skips deferred calls),
      the [deferred] combinator for Go's [defer], stdpp's [x <- m; k]
      notation on [ST], preservation lemmas ([st_pres]), a weakest
      precondition calculus ([wp], [wp_bind], [wp_deferred], ...), the
      tactics [st_fold], [go_unfold], [case_match_goal] and the hint
      databases [webfetch] and [webfetch_rw].
    - [GoUrl.v]: the class [UrlLib] (what main.go needs of [net/url]:
      [ParseRequestURI] and [URL.String]) and the instance [GoUrlLib], a
      model of Go's [url.ParseRequestURI] ([getScheme], [parseAuthority],
      [parseHost], the escape check of the path) and of [URL.String].
    - [GoRuntime.v]: the [world] record (arguments, standard output and
      error bytes, the file system as a [gmap string entry], the errors
      [os.Create] reports, free disk space, the network as a function from
      URL strings to replies, open response bodies and output files, and a
      trace of events), and the library calls [fmt.Print]/[Println]/
      [Eprintln], [os.Exit], [os.Stat], [os.Create], [os.File.Write]
      (a short write when the disk is full), [http.Get] (scheme and host
      checks, then the network), [ioutil.ReadAll] and [Body.Close].  The
      relation [frame_except s] says a step changed nothing but the sink
      [s]; it is a [PreOrder].
    - [Bufio.v] (Module [Bufio]): Go's [bufio.Writer] ([NewWriter],
      [Available], [Buffered], [Write] with its loop [write_loop], [Flush]),
      its invariant [wf] and the refinement of an unbuffered writer
      ([Write_refines]: sink contents followed by the buffer are what was
      written).
    - [Flag.v] (Module [Flag]): Go's [flag] package for the one string flag
      [-o]: [parseOne], the loop [parse_loop], [Parse] with [ExitOnError]
      (status 0 after [-h], 2 after other errors), [NArg].
    - [Webfetch.v]: main.go itself, in a Section over any [UrlLib]:
      [getWriter] (lines 15-35), [writeContents] (lines 39-43), [main]
      (lines 45-88) and [run], the process (status 0 when [main] returns);
      then the theorems about whole runs.

    ** The theorems

    - Whole runs ([Webfetch.v]): success on standard output and on a new
      file (the body and one newline arrive, one request, body closed);
      each error exit (argument count, invalid URL, existing output, create
      error, transport error, read error, [-h], flag errors, flags after the
      URL); and, for every start world and every [UrlLib], the run-wide
      properties proved through [main_wp]: status 0 comes only after [-h]
      or a complete fetch (one URL argument, the whole body received, one
      request, the body closed last), at most one request is made, no existing entry is changed and the only path
      that can change is the [-o] value.
    - The behaviours main.go gets wrong against its spec, each a theorem:
      an empty file is left after a transport error, the body stays open
      after a read error ([os.Exit] skips the deferred [Close]), the output
      file is never closed, ["/index.html"] passes validation, and a full
      disk still gives status 0 with a truncated file.
    - [bufio.Writer]: the loop ends within [write_fuel = 3] rounds (a round
      either flushes a full buffer, after which the rest fits or goes
      direct, or writes directly, after which the buffer is empty or the
      error is set); [Write] keeps [wf]; [Flush] loses no byte (the
      sink's contents followed by the buffer are unchanged, whatever the
      sink does); errors are sticky; a short [Flush] keeps the unwritten
      tail.
    - [flag]: the loop ends with fuel [length args + 1], since each flag
      that is seen consumes at least one argument.

    ** Not modelled
    The internals of [net/http] (redirects, TLS, timeouts: a request is one
    reply of [w_net]), the race between [os.Stat] and [os.Create] (the model
    is sequential), the bytes of [log] and of Go's panics (main.go has
    none), and the parts of [net/url] main.go does not reach beyond
    [ParseRequestURI] and [String].  Library code (bufio, flag, net/url,
    the OS) is modelled after the Go sources' behaviour as far as main.go
    depends on it; only main.go is under [src/].
*)

From Stdlib Require Export String Ascii Strings.Byte ZArith Lia.
From stdpp Require Export base gmap strings list.

(** [String] declares its own [length]; [length] stays the one of lists. *)
Abbreviation length := Datatypes.length.

Declare Scope go_scope.
Delimit Scope go_scope with go.

(** ** Bytes and Go strings *)

(** A Go [[]byte]. *)
Definition bytes := list byte.

#[export] Instance byte_eq_dec : EqDecision byte := Byte.byte_eq_dec.

(** Go's conversion [[]byte(s)]: a Go string is a sequence of bytes, as a
    Rocq [string] is a sequence of 8-bit characters. *)
Definition bytes_of (s : string) : bytes := list_byte_of_string s.

(** The double quote character, as Go's [%q] writes it around strings. *)
Definition dquote : string := String "034"%char EmptyString.

Definition quote (s : string) : string := (dquote ++ s ++ dquote)%string.

(** A Go [error] value, represented by the text of its [Error()] method. *)
Definition goerror := string.

(** ** The state and exit monad *)

(** The outcome of a Go computation that may call [os.Exit]. *)
Inductive outcome (A : Type) : Type :=
| Done (a : A)
| Exited (code : Z).
Arguments Done {A} a.
Arguments Exited {A} code.

(** A computation on a state [S]: the state is threaded explicitly and
    [os.Exit] ends the computation with the state reached so far. *)
Definition ST (S A : Type) : Type := S -> outcome A * S.

Definition st_ret {S A} (a : A) : ST S A := fun s => (Done a, s).

Definition st_bind {S A B} (m : ST S A) (k : A -> ST S B) : ST S B :=
  fun s =>
    match m s with
    | (Done a, s') => k a s'
    | (Exited c, s') => (Exited c, s')
    end.

(** [os.Exit(code)]. *)
Definition st_exit {S A} (code : Z) : ST S A := fun s => (Exited code, s).

Definition st_modify {S} (f : S -> S) : ST S unit := fun s => (Done tt, f s).

Definition st_gets {S A} (f : S -> A) : ST S A := fun s => (Done (f s), s).

#[export] Instance st_mret {S} : MRet (ST S) := fun A a => st_ret a.
#[export] Instance st_mbind {S} : MBind (ST S) := fun A B k m => st_bind m k.

(** Go's [defer d] around the rest [body] of a function: [d] runs when
    [body] returns, and does not run when [body] calls [os.Exit].  [d]
    receives what [body] returns, which is how the model hands it the state
    at return of an object the deferred call holds a pointer to. *)
Definition deferred {S A} (body : ST S A) (d : A -> ST S unit) : ST S A :=
  st_bind body (fun a => st_bind (d a) (fun _ => st_ret a)).

(** [wp m Q E s]: the run of [m] from [s] either returns [a] in a state
    satisfying [Q a], or exits with a code [c] in a state satisfying
    [E c]. *)
Definition wp {S A} (m : ST S A) (Q : A -> S -> Prop) (E : Z -> S -> Prop) (s : S) : Prop :=
  match m s with
  | (Done a, s') => Q a s'
  | (Exited c, s') => E c s'
  end.

(** ** Monad laws and unfolding *)

Section Laws.
Context {S : Type}.

Lemma st_bind_ret_l {A B} (a : A) (k : A -> ST S B) :
  st_bind (st_ret a) k = k a.
Proof. reflexivity. Qed.

Lemma st_bind_ret_r {A} (m : ST S A) (s : S) :
  st_bind m st_ret s = m s.
Proof. unfold st_bind, st_ret. by destruct (m s) as [[a|c] s']. Qed.

Lemma st_bind_assoc {A B C} (m : ST S A) (k : A -> ST S B) (h : B -> ST S C) s :
  st_bind (st_bind m k) h s = st_bind m (fun a => st_bind (k a) h) s.
Proof. unfold st_bind. by destruct (m s) as [[a|c] s']. Qed.

Lemma st_bind_exit {A B} (c : Z) (k : A -> ST S B) :
  st_bind (st_exit c) k = st_exit c.
Proof. reflexivity. Qed.

(** A deferred call is skipped by [os.Exit]. *)
Lemma deferred_exit {A} (body : ST S A) d s c s' :
  body s = (Exited c, s') -> deferred body d s = (Exited c, s').
Proof. unfold deferred, st_bind. by intros ->. Qed.
End Laws.

(** ** Preservation of a relation on states *)

(** [st_pres R m]: every run of [m] relates its start and end states. *)
Definition st_pres {S A} (R : relation S) (m : ST S A) : Prop :=
  forall s, R s (snd (m s)).

Section Pres.
Context {S : Type} (R : relation S) `{!PreOrder R}.

Lemma st_pres_ret {A} (a : A) : st_pres R (st_ret a).
Proof. intros s. simpl. reflexivity. Qed.

Lemma st_pres_exit {A} c : st_pres R (@st_exit S A c).
Proof. intros s. simpl. reflexivity. Qed.

Lemma st_pres_bind {A B} (m : ST S A) (k : A -> ST S B) :
  st_pres R m -> (forall a, st_pres R (k a)) -> st_pres R (st_bind m k).
Proof.
  intros Hm Hk s. unfold st_bind. specialize (Hm s).
  destruct (m s) as [[a|c] s'] eqn:E; simpl in *; [|done].
  etrans; [exact Hm|]. apply Hk.
Qed.

Lemma st_pres_deferred {A} (body : ST S A) d :
  st_pres R body -> (forall a, st_pres R (d a)) -> st_pres R (deferred body d).
Proof.
  intros Hb Hd. apply st_pres_bind; [done|]. intros a.
  apply st_pres_bind; [done|]. intros _. apply st_pres_ret.
Qed.
End Pres.

(** ** Weakest preconditions *)

Section Wp.
Context {S : Type}.

Lemma wp_ret {A} (a : A) Q E (s : S) : Q a s -> wp (st_ret a) Q E s.
Proof. done. Qed.

Lemma wp_exit {A} c Q E (s : S) : E c s -> wp (@st_exit S A c) Q E s.
Proof. done. Qed.

Lemma wp_bind {A B} (m : ST S A) (k : A -> ST S B) Q E s :
  wp m (fun a s' => wp (k a) Q E s') E s -> wp (st_bind m k) Q E s.
Proof. unfold wp, st_bind. by destruct (m s) as [[a|c] s']. Qed.

Lemma wp_mono {A} (m : ST S A) (Q Q' : A -> S -> Prop) (E E' : Z -> S -> Prop) s :
  wp m Q E s -> (forall a s', Q a s' -> Q' a s') -> (forall c s', E c s' -> E' c s') ->
  wp m Q' E' s.
Proof. unfold wp. destruct (m s) as [[a|c] s']; auto. Qed.

Lemma wp_deferred {A} (body : ST S A) d Q E s :
  wp body (fun a s' => wp (d a) (fun _ s'' => Q a s'') E s') E s -> wp (deferred body d) Q E s.
Proof.
  intros H. unfold deferred. apply wp_bind. eapply wp_mono; [exact H| |done].
  intros a s' Hd. apply wp_bind. eapply wp_mono; [exact Hd| |done]. intros. by apply wp_ret.
Qed.

Lemma wp_modify f Q E (s : S) : Q tt (f s) -> wp (st_modify f) Q E s.
Proof. done. Qed.

(** Read [wp] of a computation whose run is known. *)
Lemma wp_run {A} (m : ST S A) Q E s r s' :
  m s = (r, s') -> wp m Q E s = match r with Done a => Q a s' | Exited c => E c s' end.
Proof. unfold wp. by intros ->. Qed.
End Wp.

Create HintDb webfetch.
Create Rewrite HintDb webfetch_rw.
#[export] Hint Resolve st_pres_ret st_pres_exit st_pres_bind st_pres_deferred : webfetch.

(** Unfold the monad's plumbing on a concrete computation. *)
(** Turn stdpp's [mbind]/[mret] back into [st_bind]/[st_ret]. *)
Ltac st_fold := unfold mbind, mret, st_mbind, st_mret.

Ltac go_unfold :=
  unfold mbind, mret, st_mbind, st_mret, deferred, st_bind, st_ret, st_exit,
    st_modify, st_gets; cbv beta iota.

(** Case analysis on the first [match] met in the goal, keeping the
    equation. *)
Ltac case_match_goal :=
  match goal with
  | |- context [match ?x with _ => _ end] =>
      let E := fresh "E" in destruct x eqn:E
  end.

(** ** Generic list lemmas *)

Lemma firstn_app_length {A} (l1 l2 : list A) :
  firstn (length l1) (l1 ++ l2) = l1.
Proof. rewrite firstn_app, Nat.sub_diag, firstn_all. simpl. apply app_nil_r. Qed.

Lemma skipn_app_length {A} (l1 l2 : list A) :
  skipn (length l1) (l1 ++ l2) = l2.
Proof. rewrite skipn_app, Nat.sub_diag, skipn_all. done. Qed.

#[export] Hint Rewrite @firstn_app_length @skipn_app_length @app_nil_r @length_app : webfetch_rw.
