(* ===== verification/GoUrl.v ===== *)
(** * What main.go needs of [net/url], and a model of [url.ParseRequestURI]

    main.go uses two things of [net/url]: [url.ParseRequestURI(s)], which
    either gives a [*url.URL] or an error, and the [String()] method of the
    result, whose text is handed to [http.Get].  The class [UrlLib] states
    exactly that interface; the theorems about [main] in [Webfetch.v] are
    proved for every instance.  [GoUrl] implements it after Go's
    [net/url.parse] with [viaRequest = true]: the control-byte check, the
    empty string, ["*"], the scheme ([getScheme]), the query, the rule that
    a request URI without a scheme must start with ['/'], the authority
    (user information, host and port) and the percent-escapes of the path.
    Simplifications, none of which changes whether the strings of the
    theorems are accepted: a percent-escape in a host is refused (Go
    accepts [%25] in an IPv6 zone), the inside of an IPv6 literal is not
    checked, and [String()] writes the path and query back as they were
    given, which is Go's text whenever they were already escaped the way
    Go escapes them. *)

From S2P Require Import Prelude.

(** ** The interface *)

Class UrlLib : Type := {
  url_t : Type;
  ParseRequestURI : string -> url_t + goerror;
  url_String : url_t -> string
}.

Module GoUrl.

(** The fields of [url.URL] that [ParseRequestURI] fills ([Fragment] and
    [RawFragment] are never set on this path). *)
Record URL : Type := mkURL {
  Scheme : string;
  Opaque : string;
  User : option string;
  Host : string;
  Path : string;
  RawQuery : string;
  ForceQuery : bool;
  OmitHost : bool
}.

Definition empty_url : URL := mkURL EmptyString EmptyString None EmptyString EmptyString EmptyString false false.

Definition chr (n : nat) : ascii := ascii_of_nat n.

(** [stringContainsCTLByte]: a byte below [0x20] or equal to [0x7f]. *)
Fixpoint has_ctl (s : string) : bool :=
  match s with
  | EmptyString => false
  | String c tl => (nat_of_ascii c <? 32) || (nat_of_ascii c =? 127) || has_ctl tl
  end.

Definition is_alpha (c : ascii) : bool :=
  let n := nat_of_ascii c in ((65 <=? n) && (n <=? 90)) || ((97 <=? n) && (n <=? 122)).

Definition is_digit (c : ascii) : bool :=
  let n := nat_of_ascii c in (48 <=? n) && (n <=? 57).

Definition is_hex (c : ascii) : bool :=
  let n := nat_of_ascii c in
  is_digit c || ((65 <=? n) && (n <=? 70)) || ((97 <=? n) && (n <=? 102)).

(** [getScheme]: the letters, digits, ['+'], ['-'] and ['.'] before the
    first [':'] (a scheme starts with a letter); no scheme when another
    byte comes first; an error when [':'] is the first byte.  [acc] holds
    the bytes seen so far, [i] their number. *)
Fixpoint get_scheme_aux (raw : string) (acc : string) (i : nat) (s : string)
  : (string * string) + goerror :=
  match s with
  | EmptyString => inl (EmptyString, raw)
  | String c tl =>
      if is_alpha c then get_scheme_aux raw (acc ++ String c EmptyString)%string (S i) tl
      else if is_digit c || Ascii.eqb c "+"%char || Ascii.eqb c "-"%char || Ascii.eqb c "."%char then
        if i =? 0 then inl (EmptyString, raw)
        else get_scheme_aux raw (acc ++ String c EmptyString)%string (S i) tl
      else if Ascii.eqb c ":"%char then
        if i =? 0 then inr "missing protocol scheme" else inl (acc, tl)
      else inl (EmptyString, raw)
  end.

Definition getScheme (raw : string) : (string * string) + goerror :=
  get_scheme_aux raw EmptyString 0 raw.

(** [strings.ToLower] on ASCII letters. *)
Fixpoint to_lower (s : string) : string :=
  match s with
  | EmptyString => EmptyString
  | String c tl =>
      let n := nat_of_ascii c in
      String (if (65 <=? n) && (n <=? 90) then chr (n + 32) else c) (to_lower tl)
  end.

(** [strings.Count(s, c)] for one byte. *)
Fixpoint count_char (c : ascii) (s : string) : nat :=
  match s with
  | EmptyString => 0
  | String d tl => (if Ascii.eqb c d then 1 else 0) + count_char c tl
  end.

(** [strings.Cut(s, c)] for one byte: before, after, found. *)
Fixpoint cut_char (c : ascii) (s : string) : string * string * bool :=
  match s with
  | EmptyString => (EmptyString, EmptyString, false)
  | String d tl =>
      if Ascii.eqb c d then (EmptyString, tl, true)
      else let '(a, b, f) := cut_char c tl in (String d a, b, f)
  end.

(** [strings.LastIndex(s, c)] for one byte, split there: before, after. *)
Fixpoint cut_last (c : ascii) (s : string) : option (string * string) :=
  match s with
  | EmptyString => None
  | String d tl =>
      match cut_last c tl with
      | Some (a, b) => Some (String d a, b)
      | None => if Ascii.eqb c d then Some (EmptyString, tl) else None
      end
  end.

(** The authority at the start of what follows ["//"]: up to the first
    ['/'], ['?'] or ['#']. *)
Fixpoint authority_of (s : string) : string :=
  match s with
  | EmptyString => EmptyString
  | String c tl =>
      if Ascii.eqb c "/"%char || Ascii.eqb c "?"%char || Ascii.eqb c "#"%char
      then EmptyString else String c (authority_of tl)
  end.

Definition last_char (s : string) : option ascii :=
  match String.length s with
  | O => None
  | S n => String.get n s
  end.

Definition drop_last (s : string) : string := substring 0 (pred (String.length s)) s.

Definition starts_with (c : ascii) (s : string) : bool :=
  match s with String d _ => Ascii.eqb c d | EmptyString => false end.

(** [validOptionalPort]: empty, or [':'] followed by digits. *)
Definition validOptionalPort (port : string) : bool :=
  match port with
  | EmptyString => true
  | String c tl => Ascii.eqb c ":"%char && forallb is_digit (list_ascii_of_string tl)
  end.

(** Bytes a host may hold unescaped ([shouldEscape(c, encodeHost)] is
    false); bytes of [0x80] and above are left to later checks. *)
Definition host_byte_ok (c : ascii) : bool :=
  is_alpha c || is_digit c || (128 <=? nat_of_ascii c) ||
  existsb (Ascii.eqb c) (list_ascii_of_string "!$&'()*+,;=:[]<>-_.~") ||
  Ascii.eqb c (chr 34).

Fixpoint first_bad_host_byte (s : string) : option ascii :=
  match s with
  | EmptyString => None
  | String c tl => if host_byte_ok c then first_bad_host_byte tl else Some c
  end.

(** [parseHost]: a bracketed IPv6 literal needs its [']'] and a valid port
    after it; otherwise the port after the last [':'] must be valid and
    each byte allowed in a host. *)
Definition parseHost (host : string) : string + goerror :=
  if starts_with "["%char host then
    match cut_last "]"%char host with
    | None => inr "missing ']' in host"
    | Some (_, port) =>
        if validOptionalPort port then inl host
        else inr ("invalid port " ++ quote port ++ " after host")%string
    end
  else
    let port_ok := match cut_last ":"%char host with
                   | Some (_, p) => validOptionalPort (String ":"%char p)
                   | None => true
                   end in
    if negb port_ok then
      match cut_last ":"%char host with
      | Some (_, p) => inr ("invalid port " ++ quote (String ":"%char p) ++ " after host")%string
      | None => inl host
      end
    else
      match first_bad_host_byte host with
      | Some c => inr ("invalid character " ++ quote (String c EmptyString) ++ " in host name")%string
      | None => inl host
      end.

(** [validUserinfo]: letters, digits and [-._:~!$&'()*+,;=%@]. *)
Definition validUserinfo (s : string) : bool :=
  forallb (fun c => is_alpha c || is_digit c ||
                    existsb (Ascii.eqb c) (list_ascii_of_string "-._:~!$&'()*+,;=%@"))
          (list_ascii_of_string s).

(** [parseAuthority]: user information before the last ['@'], then the
    host. *)
Definition parseAuthority (authority : string) : (option string * string) + goerror :=
  match cut_last "@"%char authority with
  | None =>
      match parseHost authority with
      | inl h => inl (None, h)
      | inr e => inr e
      end
  | Some (ui, h) =>
      match parseHost h with
      | inr e => inr e
      | inl h => if validUserinfo ui then inl (Some ui, h) else inr "net/url: invalid userinfo"
      end
  end.

(** The escapes of [unescape(s, encodePath)]: every ['%'] is followed by
    two hexadecimal digits; the error names the bad escape. *)
Fixpoint check_escapes (s : string) : option string :=
  match s with
  | EmptyString => None
  | String c tl =>
      if Ascii.eqb c "%"%char then
        match tl with
        | String h1 (String h2 rest) =>
            if is_hex h1 && is_hex h2 then check_escapes rest
            else Some (substring 0 3 s)
        | _ => Some s
        end
      else check_escapes tl
  end.

(** [parse(rawURL, true)], the body of [url.ParseRequestURI] before its
    error is wrapped. *)
Definition parse_request (raw : string) : URL + goerror :=
  if has_ctl raw then inr "net/url: invalid control character in URL"
  else if String.eqb raw EmptyString then inr "empty url"
  else if String.eqb raw "*" then inl (mkURL EmptyString EmptyString None EmptyString "*" EmptyString false false)
  else
    match getScheme raw with
    | inr e => inr e
    | inl (scheme, rest) =>
        let scheme := to_lower scheme in
        let '(rest, query, force) :=
          if (match last_char rest with Some c => Ascii.eqb c "?"%char | None => false end)
             && (count_char "?"%char rest =? 1)
          then (drop_last rest, EmptyString, true)
          else let '(a, b, _) := cut_char "?"%char rest in (a, b, false) in
        if negb (starts_with "/"%char rest) then
          if negb (String.eqb scheme EmptyString)
          then inl (mkURL scheme rest None EmptyString EmptyString query force false)
          else inr "invalid URI for request"
        else
          let authority :=
            if negb (String.eqb scheme EmptyString) && String.prefix "//" rest
            then let a := substring 2 (String.length rest - 2) rest in
                 let '(host, path, found) := cut_char "/"%char a in
                 Some (host, if found then String "/"%char path else EmptyString)
            else None in
          match authority with
          | Some (auth, path) =>
              match parseAuthority auth with
              | inr e => inr e
              | inl (user, host) =>
                  match check_escapes path with
                  | Some bad => inr ("invalid URL escape " ++ quote bad)%string
                  | None => inl (mkURL scheme EmptyString user host path query force false)
                  end
              end
          | None =>
              match check_escapes rest with
              | Some bad => inr ("invalid URL escape " ++ quote bad)%string
              | None => inl (mkURL scheme EmptyString None EmptyString rest query force
                                   (negb (String.eqb scheme EmptyString)))
              end
          end
    end.

(** [url.ParseRequestURI(rawURL)]: the error of [parse] wrapped as
    [&Error{"parse", rawURL, err}], printed [parse "rawURL": err]. *)
Definition ParseRequestURI (raw : string) : URL + goerror :=
  match parse_request raw with
  | inl u => inl u
  | inr e => inr ("parse " ++ quote raw ++ ": " ++ e)%string
  end.

(** the [String()] method of [*URL], for the URLs [ParseRequestURI] returns. *)
Definition String_ (u : URL) : string :=
  let sch := if String.eqb (Scheme u) EmptyString then EmptyString
             else (Scheme u ++ ":")%string in
  let body :=
    if negb (String.eqb (Opaque u) EmptyString) then Opaque u
    else
      let auth :=
        if negb (String.eqb (Scheme u) EmptyString) || negb (String.eqb (Host u) EmptyString)
           || bool_decide (User u <> None) then
          if OmitHost u && String.eqb (Host u) EmptyString && bool_decide (User u = None)
          then EmptyString
          else
            ((if negb (String.eqb (Host u) EmptyString) || negb (String.eqb (Path u) EmptyString)
                 || bool_decide (User u <> None) then "//" else EmptyString) ++
             (match User u with Some ui => ui ++ "@" | None => EmptyString end) ++ Host u)%string
        else EmptyString in
      (auth ++ Path u)%string in
  let q := if ForceQuery u || negb (String.eqb (RawQuery u) EmptyString)
           then ("?" ++ RawQuery u)%string else EmptyString in
  (sch ++ body ++ q)%string.

End GoUrl.

#[export] Instance GoUrlLib : UrlLib := {|
  url_t := GoUrl.URL;
  ParseRequestURI := GoUrl.ParseRequestURI;
  url_String := GoUrl.String_
|}.
