(* ===== verification/GoRuntime.v ===== *)
(** * The operating system and Go runtime seen by webfetch

    The [world] is everything a run of main.go can observe or change: its
    command-line arguments, the bytes written to file descriptors 1 and 2,
    the file system, the free space of the disk, the network, the response
    bodies and output files left open, and a trace of the system calls in
    the order they were made.  Each library function main.go calls is a
    computation of [M := ST world]. *)

From S2P Require Import Prelude GoUrl.

(** ** The world *)

(** An entry of the file system. *)
Inductive entry : Type :=
| EFile (contents : bytes)
| EDir.

#[export] Instance entry_eq_dec : EqDecision entry.
Proof. solve_decision. Defined.

(** Where a [bufio.Writer] sends its bytes: [os.Stdout] or an [*os.File]
    created at a path. *)
Inductive sink : Type :=
| SinkStdout
| SinkFile (path : string).

(** What the network answers to an HTTP GET of a URL string: a transport
    error ([http.Get] fails), or a response whose body yields [body] and
    then either end of file ([None]) or a read error. *)
Inductive net_reply : Type :=
| NetFail (e : goerror)
| NetResp (body : bytes) (read_err : option goerror).

(** The system calls of a run, in order. *)
Inductive event : Type :=
| EvStat (path : string)
| EvCreate (path : string)
| EvGet (url : string)
| EvReadBody
| EvCloseBody
| EvWrite (s : sink) (n : nat).

Record world : Type := mkWorld {
  w_args : list string;                   (** [os.Args[1:]] *)
  w_prog : string;                        (** [os.Args[0]] *)
  w_stdout : bytes;                       (** bytes written to fd 1 *)
  w_stderr : bytes;                       (** bytes written to fd 2 *)
  w_fs : gmap string entry;               (** the file system *)
  w_create_err : string -> option goerror; (** why [os.Create] of a path fails, if it does *)
  w_disk_free : nat;                      (** bytes the disk still accepts *)
  w_net : string -> net_reply;            (** the network *)
  w_open_bodies : nat;                    (** response bodies not yet closed *)
  w_open_files : list string;             (** files opened and not closed *)
  w_trace : list event                    (** system calls made so far *)
}.

Abbreviation M := (ST world).

(** ** Updates of the world *)

Definition upd_stdout (f : bytes -> bytes) (w : world) : world :=
  {| w_args := w_args w; w_prog := w_prog w; w_stdout := f (w_stdout w); w_stderr := w_stderr w;
     w_fs := w_fs w; w_create_err := w_create_err w; w_disk_free := w_disk_free w;
     w_net := w_net w; w_open_bodies := w_open_bodies w;
     w_open_files := w_open_files w; w_trace := w_trace w |}.

Definition upd_stderr (f : bytes -> bytes) (w : world) : world :=
  {| w_args := w_args w; w_prog := w_prog w; w_stdout := w_stdout w; w_stderr := f (w_stderr w);
     w_fs := w_fs w; w_create_err := w_create_err w; w_disk_free := w_disk_free w;
     w_net := w_net w; w_open_bodies := w_open_bodies w;
     w_open_files := w_open_files w; w_trace := w_trace w |}.

Definition upd_fs (f : gmap string entry -> gmap string entry) (w : world) : world :=
  {| w_args := w_args w; w_prog := w_prog w; w_stdout := w_stdout w; w_stderr := w_stderr w;
     w_fs := f (w_fs w); w_create_err := w_create_err w; w_disk_free := w_disk_free w;
     w_net := w_net w; w_open_bodies := w_open_bodies w;
     w_open_files := w_open_files w; w_trace := w_trace w |}.

Definition upd_disk_free (f : nat -> nat) (w : world) : world :=
  {| w_args := w_args w; w_prog := w_prog w; w_stdout := w_stdout w; w_stderr := w_stderr w;
     w_fs := w_fs w; w_create_err := w_create_err w; w_disk_free := f (w_disk_free w);
     w_net := w_net w; w_open_bodies := w_open_bodies w;
     w_open_files := w_open_files w; w_trace := w_trace w |}.

Definition upd_bodies (f : nat -> nat) (w : world) : world :=
  {| w_args := w_args w; w_prog := w_prog w; w_stdout := w_stdout w; w_stderr := w_stderr w;
     w_fs := w_fs w; w_create_err := w_create_err w; w_disk_free := w_disk_free w;
     w_net := w_net w; w_open_bodies := f (w_open_bodies w);
     w_open_files := w_open_files w; w_trace := w_trace w |}.

Definition upd_files (f : list string -> list string) (w : world) : world :=
  {| w_args := w_args w; w_prog := w_prog w; w_stdout := w_stdout w; w_stderr := w_stderr w;
     w_fs := w_fs w; w_create_err := w_create_err w; w_disk_free := w_disk_free w;
     w_net := w_net w; w_open_bodies := w_open_bodies w;
     w_open_files := f (w_open_files w); w_trace := w_trace w |}.

(** Record a system call. *)
Definition log (e : event) (w : world) : world :=
  {| w_args := w_args w; w_prog := w_prog w; w_stdout := w_stdout w; w_stderr := w_stderr w;
     w_fs := w_fs w; w_create_err := w_create_err w; w_disk_free := w_disk_free w;
     w_net := w_net w; w_open_bodies := w_open_bodies w;
     w_open_files := w_open_files w; w_trace := w_trace w ++ [e] |}.

(** ** Strings used in messages *)

Definition newline : bytes := [x0a].

(** The string ["\n"]. *)
Definition nl : string := String "010"%char EmptyString.


(** ** The library calls main.go makes *)

(** [fmt.Print(s)]: the bytes of [s] on standard output, unbuffered. *)
Definition fmt_Print (s : string) : M unit :=
  st_modify (upd_stdout (fun o => o ++ bytes_of s)).

(** [fmt.Println(s)]: [s] and a newline.  [fmt.Println(err)] prints
    [err.Error()], which is how a [goerror] is represented. *)
Definition fmt_Println (s : string) : M unit :=
  st_modify (upd_stdout (fun o => o ++ bytes_of s ++ newline)).

(** [fmt.Fprintln(os.Stderr, s)]. *)
Definition fmt_Eprintln (s : string) : M unit :=
  st_modify (upd_stderr (fun o => o ++ bytes_of s ++ newline)).

(** [os.Exit(code)]: the process ends; deferred calls do not run. *)
Definition os_Exit {A} (code : Z) : M A := st_exit code.

(** [os.Stat(path)], reduced to its error result: [None] (a nil error)
    when an entry exists at [path]. *)
Definition os_Stat (path : string) : M (option goerror) :=
  fun w =>
    let w := log (EvStat path) w in
    match w_fs w !! path with
    | Some _ => (Done None, w)
    | None => (Done (Some ("stat " ++ path ++ ": no such file or directory")%string), w)
    end.

(** [os.Create(path)]: creates or truncates the file and opens it; the
    returned [*os.File] is represented by its [Name()], the path. *)
Definition os_Create (path : string) : M (string + goerror) :=
  fun w =>
    let w := log (EvCreate path) w in
    match w_create_err w path, w_fs w !! path with
    | Some e, _ => (Done (inr ("open " ++ path ++ ": " ++ e)%string), w)
    | None, Some EDir => (Done (inr ("open " ++ path ++ ": is a directory")%string), w)
    | None, _ =>
        (Done (inl path),
         upd_files (fun fs => path :: fs) (upd_fs (insert path (EFile [])) w))
    end.

(** The contents of a file, empty when [path] names no file. *)
Definition file_contents (fs : gmap string entry) (path : string) : bytes :=
  match fs !! path with
  | Some (EFile c) => c
  | _ => []
  end.

(** [os.File.Write(p)] on an [*os.File]: the file system accepts as many
    bytes as the disk has room for; a short write returns the count and an error, as
    Go's [io.Writer] contract requires. *)
Definition file_Write (path : string) (p : bytes) : M (nat * option goerror) :=
  fun w =>
    let k := Nat.min (length p) (w_disk_free w) in
    let w' := log (EvWrite (SinkFile path) k)
                (upd_disk_free (fun n => n - k)
                   (upd_fs (insert path (EFile (file_contents (w_fs w) path ++ firstn k p))) w)) in
    if k <? length p
    then (Done (k, Some ("write " ++ path ++ ": no space left on device")%string), w')
    else (Done (k, None), w').

(** [os.Stdout.Write(p)]: standard output takes every byte. *)
Definition stdout_Write (p : bytes) : M (nat * option goerror) :=
  fun w => (Done (length p, None),
            log (EvWrite SinkStdout (length p)) (upd_stdout (fun o => o ++ p) w)).

(** The [Write] method of a sink. *)
Definition sink_Write (s : sink) (p : bytes) : M (nat * option goerror) :=
  match s with
  | SinkStdout => stdout_Write p
  | SinkFile path => file_Write path p
  end.

(** An [*http.Response], reduced to its body. *)
Record response : Type := mkResponse {
  resp_body : bytes;
  resp_read_err : option goerror
}.

(** The checks [http.Get] makes before any traffic: the URL's scheme
    ([url.Parse] then [Transport.roundTrip]) must be [http] or [https],
    and the request needs a host: [req.URL.Host], the authority after its
    user information (up to the last ['@']). *)
Definition request_error (u : string) : option goerror :=
  match GoUrl.getScheme u with
  | inr e => Some e
  | inl (scheme, rest) =>
      let scheme := GoUrl.to_lower scheme in
      if negb (String.eqb scheme "http" || String.eqb scheme "https")
      then Some ("unsupported protocol scheme " ++ quote scheme)%string
      else
        let auth := if String.prefix "//" rest
                    then GoUrl.authority_of (substring 2 (String.length rest - 2) rest)
                    else EmptyString in
        let host := match GoUrl.cut_last "@"%char auth with
                    | Some (_, h) => h
                    | None => auth
                    end in
        if String.eqb host EmptyString then Some "http: no Host in request URL" else None
  end.

(** [http.Get(u)]: the client's checks, then one request; an error is
    reported as Go's [*url.Error] prints it. *)
Definition http_Get (u : string) : M (response + goerror) :=
  fun w =>
    match request_error u with
    | Some e => (Done (inr ("Get " ++ quote u ++ ": " ++ e)%string), w)
    | None =>
        let w := log (EvGet u) w in
        match w_net w u with
        | NetFail e => (Done (inr ("Get " ++ quote u ++ ": " ++ e)%string), w)
        | NetResp b re => (Done (inl (mkResponse b re)), upd_bodies S w)
        end
    end.

(** [ioutil.ReadAll(response.Body)]: the bytes read and the error that
    stopped the read, [None] at end of file. *)
Definition ioutil_ReadAll (r : response) : M (bytes * option goerror) :=
  fun w => (Done (resp_body r, resp_read_err r), log EvReadBody w).

(** [response.Body.Close()]. *)
Definition body_Close (r : response) : M unit :=
  fun w => (Done tt, log EvCloseBody (upd_bodies pred w)).

(** ** Observations of a world *)

(** What a sink holds: standard output, or the file's contents. *)
Definition sink_contents (w : world) (s : sink) : bytes :=
  match s with
  | SinkStdout => w_stdout w
  | SinkFile path => file_contents (w_fs w) path
  end.

(** The sink accepts [n] more bytes without a short write. *)
Definition sink_room (w : world) (s : sink) (n : nat) : Prop :=
  match s with
  | SinkStdout => True
  | SinkFile _ => n <= w_disk_free w
  end.

(** The number of HTTP requests in a trace. *)
Definition is_get (e : event) : bool :=
  match e with EvGet _ => true | _ => false end.

Definition count_gets (tr : list event) : nat := length (List.filter is_get tr).

(** ** The frame of a sink write

    [frame_except s w w']: from [w] to [w'] only the contents of the sink
    [s] (and the free space and the trace's writes) changed: arguments,
    standard error, the network, open handles and the number of requests
    are the same, and the other sink is untouched. *)
Definition frame_except (s : sink) (w w' : world) : Prop :=
  w_args w' = w_args w /\ w_prog w' = w_prog w /\ w_stderr w' = w_stderr w /\
  w_create_err w' = w_create_err w /\ w_net w' = w_net w /\
  w_open_bodies w' = w_open_bodies w /\ w_open_files w' = w_open_files w /\
  count_gets (w_trace w') = count_gets (w_trace w) /\
  match s with
  | SinkStdout => w_fs w' = w_fs w /\ w_disk_free w' = w_disk_free w
  | SinkFile path =>
      w_stdout w' = w_stdout w /\
      (forall q, q <> path -> w_fs w' !! q = w_fs w !! q) /\
      (forall c, w_fs w !! path = Some (EFile c) -> w_fs w' !! path = Some (EFile (file_contents (w_fs w') path)))
  end.

#[export] Instance frame_except_preorder s : PreOrder (frame_except s).
Proof.
  split.
  - intros w. destruct s; repeat split; auto.
    intros c Hc. unfold file_contents. by rewrite Hc.
  - intros w1 w2 w3 H12 H23.
    destruct H12 as (?&?&?&?&?&?&?&?&H12), H23 as (?&?&?&?&?&?&?&?&H23).
    repeat split; try congruence.
    destruct s as [|path].
    + destruct H12, H23. split; congruence.
    + destruct H12 as (?&Hq12&Hf12), H23 as (?&Hq23&Hf23). repeat split; [congruence| |].
      * intros q Hq. rewrite Hq23, Hq12; auto.
      * intros c Hc. eapply Hf23, Hf12, Hc.
Qed.

Lemma count_gets_snoc tr e :
  count_gets (tr ++ [e]) = count_gets tr + (if is_get e then 1 else 0).
Proof.
  unfold count_gets. rewrite List.filter_app, length_app. simpl.
  by destruct (is_get e).
Qed.

Lemma count_gets_log_write tr s n :
  count_gets (tr ++ [EvWrite s n]) = count_gets tr.
Proof. rewrite count_gets_snoc. simpl. lia. Qed.

#[export] Hint Rewrite count_gets_snoc count_gets_log_write : webfetch_rw.

Lemma sink_room_mono w s n m : n <= m -> sink_room w s m -> sink_room w s n.
Proof. destruct s; simpl; lia. Qed.

Lemma sink_room_eq w s n m : n = m -> sink_room w s n -> sink_room w s m.
Proof. by intros ->. Qed.

(** Every sink keeps Go's [io.Writer] contract: it never reports more
    bytes than it was given, and a count short of [len(p)] comes with an
    error. *)
Lemma sink_Write_contract s p w :
  exists n e w', sink_Write s p w = (Done (n, e), w') /\
    n <= length p /\ (e = None -> n = length p) /\ frame_except s w w'.
Proof.
  destruct s as [|path]; simpl.
  - do 3 eexists. split; [reflexivity|]. split; [done|]. split; [done|].
    repeat split; simpl. apply count_gets_log_write.
  - unfold file_Write.
    set (k := Nat.min (length p) (w_disk_free w)).
    assert (Hk : k <= length p) by lia.
    assert (Hframe : frame_except (SinkFile path) w
              (log (EvWrite (SinkFile path) k)
                 (upd_disk_free (fun n => n - k)
                    (upd_fs (insert path (EFile (file_contents (w_fs w) path ++ firstn k p))) w)))).
    { repeat split; simpl; auto using count_gets_log_write.
      - intros q Hq. by rewrite lookup_insert_ne by congruence.
      - intros c _. unfold file_contents. by rewrite lookup_insert_eq. }
    destruct (Nat.ltb_spec k (length p)).
    + do 3 eexists. split; [reflexivity|]. split; [done|]. split; [discriminate|done].
    + do 3 eexists. split; [reflexivity|]. split; [done|]. split; [lia|done].
Qed.

(** A sink appends exactly the prefix of [p] whose length it reports. *)
Lemma sink_Write_appends s p w n e w' :
  sink_Write s p w = (Done (n, e), w') -> sink_contents w' s = sink_contents w s ++ firstn n p.
Proof.
  destruct s as [|path]; simpl.
  - intros H. inversion H; subst. simpl. by rewrite firstn_all.
  - unfold file_Write. intros H. case_match; inversion H; subst; simpl;
      unfold file_contents at 1; by rewrite lookup_insert_eq.
Qed.

(** A sink with room for [p] takes all of it without error, appends it to
    its contents, and has [length p] bytes less room. *)
Lemma sink_Write_room s p w :
  sink_room w s (length p) ->
  exists w', sink_Write s p w = (Done (length p, None), w') /\
    sink_contents w' s = sink_contents w s ++ p /\
    (forall n, sink_room w' s n <-> sink_room w s (n + length p)) /\
    frame_except s w w'.
Proof.
  intros Hroom. destruct (sink_Write_contract s p w) as (n & e & w' & Hw & _ & _ & Hfr).
  destruct s as [|path]; simpl in *.
  - inversion Hw; subst. eexists. split; [reflexivity|]. simpl. tauto.
  - unfold file_Write in *.
    rewrite Nat.min_l in * by lia. rewrite Nat.ltb_irrefl, firstn_all in *.
    inversion Hw; subst. eexists. split; [reflexivity|].
    simpl. unfold file_contents at 1. rewrite lookup_insert_eq.
    split; [done|]. split; [|done]. intros n. lia.
Qed.

(** The file system after writes to one file: the file holds [c'] and
    every other path is as before. *)
Lemma fs_after_file_write (fs fs' : gmap string entry) p c c' :
  fs !! p = Some (EFile c) ->
  (forall q, q <> p -> fs' !! q = fs !! q) ->
  (forall c0, fs !! p = Some (EFile c0) -> fs' !! p = Some (EFile (file_contents fs' p))) ->
  file_contents fs' p = c' -> fs' = <[p := EFile c']> fs.
Proof.
  intros Hp Hq Hf Hc. apply map_eq. intros q. destruct (decide (q = p)) as [->|Hne].
  - rewrite lookup_insert_eq, <- Hc. by eapply Hf.
  - rewrite lookup_insert_ne by congruence. by apply Hq.
Qed.
