(* ===== verification/Bufio.v ===== *)
(** * Go's [bufio.Writer]

    The writer main.go gets from [getWriter] is [bufio.NewWriter(sink)]:
    a buffer of [defaultBufSize] bytes in front of [os.Stdout] or an
    [*os.File].  [Write] copies into the buffer and flushes it when it is
    full; a write larger than the free space of an empty buffer goes to the
    sink directly; the first error of the sink is sticky.  This file models
    [Writer.Write], [Writer.Flush], [Available] and [Buffered] as in Go's
    [bufio/bufio.go], proves that the write loop ends within three rounds,
    that the buffer never outgrows its size, and that the writer refines an
    unbuffered one: what the sink holds followed by what is buffered is
    always what was written. *)

From S2P Require Import Prelude GoRuntime.

Module Bufio.

(** [type Writer struct { err error; buf []byte; n int; wr io.Writer }]:
    [buf] here is [b.buf[:b.n]], the bytes buffered, and [size] is
    [len(b.buf)]. *)
Record Writer : Type := mkWriter {
  err : option goerror;
  buf : bytes;
  size : nat;
  wr : sink
}.

Definition set_buf (b : Writer) (x : bytes) : Writer :=
  mkWriter (err b) x (size b) (wr b).

Definition set_err (b : Writer) (e : option goerror) : Writer :=
  mkWriter e (buf b) (size b) (wr b).

Definition defaultBufSize : nat := 4096.

(** [io.ErrShortWrite]. *)
Definition ErrShortWrite : goerror := "short write".

(** [bufio.NewWriter(w)] = [NewWriterSize(w, defaultBufSize)]. *)
Definition NewWriter (s : sink) : Writer :=
  mkWriter None [] defaultBufSize s.

(** [b.Available()] = [len(b.buf) - b.n]. *)
Definition Available (b : Writer) : nat := size b - length (buf b).

(** [b.Buffered()] = [b.n]. *)
Definition Buffered (b : Writer) : nat := length (buf b).

(** [b.Flush()]: a sticky error is returned again; an empty buffer is a
    no-op; otherwise the buffer goes to the sink, a short write without
    error becomes [io.ErrShortWrite], and after an error the unwritten
    tail [b.buf[n:b.n]] stays buffered. *)
Definition Flush (b : Writer) : M (option goerror * Writer) :=
  match err b with
  | Some e => st_ret (Some e, b)
  | None =>
      if Buffered b =? 0 then st_ret (None, b)
      else
        st_bind (sink_Write (wr b) (buf b)) (fun '(n, e) =>
          let e := match e with
                   | Some e => Some e
                   | None => if n <? Buffered b then Some ErrShortWrite else None
                   end in
          match e with
          | Some e => st_ret (Some e, set_err (set_buf b (skipn n (buf b))) (Some e))
          | None => st_ret (None, set_buf b [])
          end)
  end.

(** The loop of [b.Write(p)]:
    [for len(p) > b.Available() && b.err == nil { ... }].  Each round
    either writes [p] directly to the sink (empty buffer) or fills the
    buffer and flushes it.  [fuel] bounds the rounds; [None] means it ran
    out ([write_loop_terminates] shows three suffice). *)
Fixpoint write_loop (fuel : nat) (b : Writer) (p : bytes) (nn : nat)
  : M (option (Writer * bytes * nat)) :=
  match fuel with
  | O => st_ret None
  | S fuel =>
      if (Available b <? length p) && bool_decide (err b = None) then
        if Buffered b =? 0 then
          (* Large write, empty buffer: write directly from p. *)
          st_bind (sink_Write (wr b) p) (fun '(n, e) =>
            write_loop fuel (set_err b e) (skipn n p) (nn + n))
        else
          (* n = copy(b.buf[b.n:], p); b.n += n; b.Flush() *)
          let n := Nat.min (Available b) (length p) in
          st_bind (Flush (set_buf b (buf b ++ firstn n p))) (fun '(_, b') =>
            write_loop fuel b' (skipn n p) (nn + n))
      else st_ret (Some (b, p, nn))
  end.

(** The number of rounds [Write] allows its loop. *)
Definition write_fuel : nat := 3.

(** [b.Write(p)]: the loop, then the sticky error or the copy of the rest
    of [p] into the buffer.  The result is [(nn, err)] and the writer's
    new state. *)
Definition Write (b : Writer) (p : bytes) : M (nat * option goerror * Writer) :=
  st_bind (write_loop write_fuel b p 0) (fun r =>
    match r with
    | None => st_ret (0, Some "bufio: write loop did not terminate", b)
    | Some (b, p, nn) =>
        match err b with
        | Some e => st_ret (nn, Some e, b)
        | None =>
            let n := Nat.min (Available b) (length p) in
            st_ret (nn + n, None, set_buf b (buf b ++ firstn n p))
        end
    end).

(** The invariant of a writer: [b.n <= len(b.buf)]. *)
Definition wf (b : Writer) : Prop := length (buf b) <= size b.

(** What the writer has accepted so far: the sink's contents followed by
    the buffered bytes. *)
Definition view (w : world) (b : Writer) : bytes := sink_contents w (wr b) ++ buf b.


(** A world to run writers in: nothing but a disk with [free] bytes. *)
Definition bufio_world (free : nat) : world :=
  mkWorld [] "webfetch" [] [] ∅ (fun _ => None) free (fun _ => NetFail "offline") 0 [] [].

(** ** Flush *)

(** Every call of [Flush] returns (it never exits) and either empties the
    buffer without error or leaves an error in the writer. *)
Lemma Flush_cases b w :
  exists r b' w', Flush b w = (Done (r, b'), w') /\
    wr b' = wr b /\ size b' = size b /\ length (buf b') <= length (buf b) /\
    ((err b' = None /\ buf b' = [] /\ r = None) \/ (exists e, err b' = Some e /\ r = Some e)) /\
    frame_except (wr b) w w'.
Proof.
  unfold Flush, Buffered. destruct (err b) as [e|] eqn:He.
  - do 3 eexists. split; [reflexivity|]. split_and!; try done. right. eauto.
  - destruct (Nat.eqb_spec (length (buf b)) 0) as [H0|H0].
    + do 3 eexists. split; [reflexivity|]. split_and!; try done.
      left. by destruct (buf b).
    + destruct (sink_Write_contract (wr b) (buf b) w) as (n & e & w' & Hw & Hn & Hfull & Hfr).
      go_unfold. rewrite Hw.
      destruct e as [e|]; [|destruct (Nat.ltb_spec n (length (buf b)))];
        do 3 eexists; (split; [reflexivity|]); simpl;
        rewrite ?length_skipn; split_and!; auto; try lia; eauto.
Qed.

(** [Flush] on a healthy sink empties the buffer into it. *)
Lemma Flush_healthy b w :
  err b = None -> sink_room w (wr b) (length (buf b)) ->
  exists b' w', Flush b w = (Done (None, b'), w') /\
    err b' = None /\ buf b' = [] /\ wr b' = wr b /\ size b' = size b /\
    sink_contents w' (wr b) = sink_contents w (wr b) ++ buf b /\
    (forall n, sink_room w' (wr b) n <-> sink_room w (wr b) (n + length (buf b))) /\
    frame_except (wr b) w w'.
Proof.
  intros He Hroom. unfold Flush, Buffered. rewrite He.
  destruct (Nat.eqb_spec (length (buf b)) 0) as [H0|H0].
  - apply nil_length_inv in H0. do 2 eexists. split; [reflexivity|].
    rewrite H0, app_nil_r. split_and!; try done. intros n.
    by rewrite Nat.add_0_r.
  - destruct (sink_Write_room (wr b) (buf b) w Hroom) as (w' & Hw & Hc & Hr & Hfr).
    go_unfold. rewrite Hw, Nat.ltb_irrefl. do 2 eexists. split; [reflexivity|].
    split_and!; auto.
Qed.

(** ** The write loop ends within [write_fuel] rounds *)

(** One round of the loop, as an equation. *)
Lemma write_loop_S f b p nn :
  write_loop (S f) b p nn =
  if (Available b <? length p) && bool_decide (err b = None) then
    if Buffered b =? 0 then
      st_bind (sink_Write (wr b) p) (fun '(n, e) =>
        write_loop f (set_err b e) (skipn n p) (nn + n))
    else
      let n := Nat.min (Available b) (length p) in
      st_bind (Flush (set_buf b (buf b ++ firstn n p))) (fun '(_, b') =>
        write_loop f b' (skipn n p) (nn + n))
  else st_ret (Some (b, p, nn)).
Proof. reflexivity. Qed.

Lemma write_loop_exit f b p nn w :
  (Available b <? length p) && bool_decide (err b = None) = false ->
  write_loop (S f) b p nn w = (Done (Some (b, p, nn)), w).
Proof. intros H. simpl. by rewrite H. Qed.

(** After a direct write that kept the [io.Writer] contract, the next
    round ends the loop. *)
Lemma write_loop_after_direct f b p nn n e w :
  n <= length p -> (e = None -> n = length p) ->
  exists r w', write_loop (S f) (set_err b e) (skipn n p) nn w = (Done (Some r), w').
Proof.
  intros Hn Hfull. do 2 eexists. apply write_loop_exit.
  destruct e as [e|]; simpl.
  - by rewrite andb_false_r.
  - apply andb_false_intro1, Nat.ltb_ge. rewrite length_skipn, Hfull by done. lia.
Qed.

Lemma write_loop_empty f b p nn w :
  buf b = [] ->
  exists r w', write_loop (S (S f)) b p nn w = (Done (Some r), w').
Proof.
  intros Hb. destruct ((Available b <? length p) && bool_decide (err b = None)) eqn:Hc.
  - rewrite write_loop_S, Hc. unfold Buffered. rewrite Hb. cbn [length Nat.eqb].
    destruct (sink_Write_contract (wr b) p w) as (n & e & w' & Hw & Hn & Hfull & _).
    unfold st_bind. rewrite Hw. by apply write_loop_after_direct.
  - do 2 eexists. by apply write_loop_exit.
Qed.

(** The loop of [Write] ends within [write_fuel] rounds on every writer,
    every input and every world: a direct write either takes all of [p] or
    sets the sticky error, and a flush either empties the buffer or sets
    it, so a third round always finds the loop condition false. *)
Theorem write_loop_terminates b p nn w :
  exists r w', write_loop write_fuel b p nn w = (Done (Some r), w').
Proof.
  unfold write_fuel. rewrite write_loop_S. cbv zeta.
  destruct ((Available b <? length p) && bool_decide (err b = None)) eqn:Hc;
    [|do 2 eexists; reflexivity].
  destruct (Nat.eqb_spec (Buffered b) 0) as [H0|H0].
  - destruct (sink_Write_contract (wr b) p w) as (n & e & w1 & Hw & Hn & Hfull & _).
    unfold st_bind. rewrite Hw. by apply write_loop_after_direct.
  - destruct (Flush_cases (set_buf b (buf b ++ firstn (Nat.min (Available b) (length p)) p)) w)
      as (r1 & b2 & w1 & Hf & _ & _ & _ & Hcase & _).
    unfold st_bind. rewrite Hf. destruct Hcase as [(_ & Hb2 & _) | (e & He & _)].
    + by apply write_loop_empty.
    + do 2 eexists. apply write_loop_exit. by rewrite He, andb_false_r.
Qed.

(** ** Invariant: the buffer never outgrows its size *)

Lemma Flush_wf_mono b w r b' w' :
  Flush b w = (Done (r, b'), w') -> wf b -> wf b'.
Proof.
  intros Hf Hwf. destruct (Flush_cases b w) as (r2 & b2 & w2 & Hf2 & _ & Hs & Hl & _).
  rewrite Hf in Hf2. inversion Hf2; subst. unfold wf in *. lia.
Qed.

Lemma write_loop_wf f b p nn w r w' :
  write_loop f b p nn w = (Done (Some r), w') -> wf b ->
  let '(b', _, _) := r in wf b' /\ wr b' = wr b /\ size b' = size b.
Proof.
  revert b p nn w. induction f as [|f IH]; intros b p nn w Hl Hwf; [discriminate|].
  rewrite write_loop_S in Hl. cbv zeta in Hl.
  destruct ((Available b <? length p) && bool_decide (err b = None)) eqn:Hc.
  - destruct (Buffered b =? 0).
    + destruct (sink_Write_contract (wr b) p w) as (n & e & w1 & Hw & _).
      unfold st_bind in Hl. rewrite Hw in Hl. apply IH in Hl; [|done]. by destruct r as [[??]?].
    + destruct (Flush_cases (set_buf b (buf b ++ firstn (Nat.min (Available b) (length p)) p)) w) as (r1 & b2 & w1 & Hf & Hwr & Hsz & Hlen & _).
      unfold st_bind in Hl. rewrite Hf in Hl. apply IH in Hl.
      * destruct r as [[??]?]. simpl in *. destruct Hl as (? & -> & ->). auto.
      * unfold wf, Available in *. simpl in *. rewrite length_app, length_firstn in Hlen. lia.
  - inversion Hl; subst. done.
Qed.

(** The loop keeps the refinement invariant on a sink with room for all
    the bytes: what the sink holds, then the buffer, then the rest of [p],
    is the same before and after every round. *)
Lemma write_loop_healthy f b p nn w r w' k :
  write_loop f b p nn w = (Done (Some r), w') ->
  err b = None -> wf b -> sink_room w (wr b) (length (buf b) + length p + k) ->
  let '(b', p', nn') := r in
  err b' = None /\ wr b' = wr b /\ size b' = size b /\ wf b' /\ length p' <= Available b' /\
  view w' b' ++ p' = view w b ++ p /\ nn' + length p' = nn + length p /\
  sink_room w' (wr b) (length (buf b') + length p' + k) /\ frame_except (wr b) w w'.
Proof.
  revert b p nn w. induction f as [|f IH]; intros b p nn w Hl He Hwf Hroom; [discriminate|].
  rewrite write_loop_S in Hl. cbv zeta in Hl. unfold view in *.
  destruct ((Available b <? length p) && bool_decide (err b = None)) eqn:Hc.
  - destruct (Nat.eqb_spec (Buffered b) 0) as [H0|H0].
    + unfold Buffered in H0. apply nil_length_inv in H0. rewrite H0 in Hroom.
      destruct (sink_Write_room (wr b) p w) as (w1 & Hw & Hcont & Hr & Hfr).
      { eapply sink_room_mono; [|exact Hroom]. simpl. lia. }
      unfold st_bind in Hl. rewrite Hw in Hl.
      apply IH in Hl; simpl; [|done|exact Hwf|].
      2:{ rewrite H0, length_skipn, Nat.sub_diag. apply Hr. eapply sink_room_eq; [|exact Hroom]. simpl. lia. }
      destruct r as [[b' p'] nn']. destruct Hl as (?&?&?&?&?&Hv&Hn&?&?).
      simpl in *. rewrite Hv, Hcont, H0, length_skipn in *. rewrite skipn_all.
      split_and!; auto; [by rewrite !app_nil_r|lia|by etrans].
    + set (n := Nat.min (Available b) (length p)) in *.
      assert (Hn : n <= length p) by lia.
      destruct (Flush_healthy (set_buf b (buf b ++ firstn n p)) w)
        as (b2 & w1 & Hf & He2 & Hb2 & Hwr2 & Hsz2 & Hcont & Hr & Hfr); [done| |].
      { eapply sink_room_mono; [|exact Hroom]. simpl. rewrite length_app, length_firstn. lia. }
      unfold st_bind in Hl. rewrite Hf in Hl. simpl in Hwr2, Hsz2, Hcont, Hr.
      apply IH in Hl; [|done|unfold wf; rewrite Hb2; simpl; lia|].
      2:{ rewrite Hb2, Hwr2. apply Hr. eapply sink_room_eq; [|exact Hroom].
          rewrite !length_app, length_skipn, length_firstn. simpl. lia. }
      destruct r as [[b' p'] nn']. destruct Hl as (?&?&?&?&?&Hv&Hnn&?&?).
      rewrite Hwr2, Hsz2 in *. rewrite Hv, Hcont, Hb2.
      rewrite length_skipn in Hnn.
      split_and!; auto; [|lia|by etrans].
      rewrite <- (firstn_skipn n p) at 3. by rewrite !app_nil_r, <- !app_assoc.
  - inversion Hl; subst. rewrite He in Hc. simpl in Hc. rewrite andb_true_r in Hc.
    apply Nat.ltb_ge in Hc. split_and!; auto; reflexivity.
Qed.

(** Whatever the sink does, a run of the loop returns and changes nothing
    but its sink, and the writer keeps its sink. *)
Lemma write_loop_frame f b p nn w :
  exists r w', write_loop f b p nn w = (Done r, w') /\ frame_except (wr b) w w' /\
    (forall b1 p1 nn1, r = Some (b1, p1, nn1) -> wr b1 = wr b).
Proof.
  revert b p nn w. induction f as [|f IH]; intros b p nn w.
  { do 2 eexists. split; [reflexivity|]. split; [reflexivity|done]. }
  rewrite write_loop_S. cbv zeta.
  destruct ((Available b <? length p) && bool_decide (err b = None));
    [|do 2 eexists; split; [reflexivity|]; split; [reflexivity|]; by intros ??? [= ->]].
  destruct (Buffered b =? 0); unfold st_bind.
  - destruct (sink_Write_contract (wr b) p w) as (n & e & w1 & Hw & _ & _ & Hf1). rewrite Hw.
    destruct (IH (set_err b e) (skipn n p) (nn + n) w1) as (r & w' & Hl & Hf & Hwr).
    rewrite Hl. do 2 eexists. split; [reflexivity|]. split; [by etrans|]. apply Hwr.
  - destruct (Flush_cases (set_buf b (buf b ++ firstn (Nat.min (Available b) (length p)) p)) w)
      as (r1 & b2 & w1 & Hf & Hwr2 & _ & _ & _ & Hf1). rewrite Hf.
    destruct (IH b2 (skipn (Nat.min (Available b) (length p)) p)
                (nn + Nat.min (Available b) (length p)) w1) as (r & w' & Hl & Hf' & Hwr).
    rewrite Hl. simpl in Hwr2. rewrite Hwr2 in Hf'. do 2 eexists. split; [reflexivity|].
    split; [by etrans|]. intros ??? ->. by rewrite (Hwr _ _ _ eq_refl).
Qed.

(** [Write] never exits, changes nothing but the writer's sink, and
    keeps the writer's sink. *)
Lemma Write_frame b p w :
  exists n e b' w', Write b p w = (Done (n, e, b'), w') /\ wr b' = wr b /\ frame_except (wr b) w w'.
Proof.
  destruct (write_loop_frame write_fuel b p 0 w) as ([[[b1 p1] nn1]|] & w1 & Hl & Hf & Hwr);
    unfold Write, st_bind; rewrite Hl; [|by do 4 eexists].
  specialize (Hwr _ _ _ eq_refl). destruct (err b1); do 4 eexists; (split; [reflexivity|]); done.
Qed.

(** [Write] never exits. *)
Lemma Write_done b p w :
  exists r w', Write b p w = (Done r, w').
Proof.
  destruct (write_loop_terminates b p 0 w) as ([[b1 p1] nn1] & w1 & Hl).
  unfold Write, st_bind. rewrite Hl. destruct (err b1); eauto.
Qed.

(** Refinement: on a sink with room for the buffered bytes and [p],
    [Write] accepts all of [p] without error, and what the sink holds
    followed by the buffer grows by exactly [p], as if [p] had been written
    unbuffered.  The writer stays well formed, keeps its sink and size, and
    nothing but that sink changes. *)
Theorem Write_refines b p w k :
  err b = None -> wf b -> sink_room w (wr b) (length (buf b) + length p + k) ->
  exists b' w', Write b p w = (Done (length p, None, b'), w') /\
    err b' = None /\ wr b' = wr b /\ size b' = size b /\ wf b' /\
    view w' b' = view w b ++ p /\
    sink_room w' (wr b) (length (buf b') + k) /\ frame_except (wr b) w w'.
Proof.
  intros He Hwf Hroom.
  destruct (write_loop_terminates b p 0 w) as ([[b1 p1] nn1] & w1 & Hl).
  pose proof (write_loop_healthy _ _ _ _ _ _ _ _ Hl He Hwf Hroom)
    as (He1 & Hwr & Hsz & Hwf1 & Hav & Hv & Hnn & Hr & Hfr).
  unfold Write, st_bind. rewrite Hl, He1. cbv zeta.
  rewrite Nat.min_r, firstn_all by lia. rewrite Hnn.
  eexists _, _. split; [reflexivity|]. unfold view, wf, Available in *. simpl.
  rewrite length_app, app_assoc, Hv, Hwr. split_and!; auto; lia.
Qed.

(** C22: The error of the sink is sticky: once set, [Write] returns it at once
    and writes nothing. *)
Theorem Write_sticky_error b p e w :
  err b = Some e -> Write b p w = (Done (0, Some e, b), w).
Proof.
  intros He. unfold Write, write_fuel, st_bind.
  rewrite write_loop_exit by (rewrite He; apply andb_false_r). by rewrite He.
Qed.

(** C20: Invariant: [Write] keeps the buffer within its size, whatever the sink
    does. *)
Theorem Write_preserves_wf b p w n e b' w' :
  wf b -> Write b p w = (Done (n, e, b'), w') -> wf b' /\ wr b' = wr b /\ size b' = size b.
Proof.
  intros Hwf Hw. destruct (write_loop_terminates b p 0 w) as ([[b1 p1] nn1] & w1 & Hl).
  pose proof (write_loop_wf _ _ _ _ _ _ _ Hl Hwf) as (Hwf1 & Hwr & Hsz).
  unfold Write, st_bind in Hw. rewrite Hl in Hw.
  destruct (err b1); inversion Hw; subst; [done|].
  unfold wf, Available in *. simpl. rewrite length_app, length_firstn. split_and!; auto; lia.
Qed.

(** C21: [Flush] loses no byte: whatever the sink does (a full write, a
    short write, an error), the sink's contents followed by the buffer are
    the same after the call as before, and the writer stays well formed
    on the same sink. *)
Theorem Flush_keeps_view b w r b' w' :
  wf b -> Flush b w = (Done (r, b'), w') -> wf b' /\ wr b' = wr b /\ view w' b' = view w b.
Proof.
  intros Hwf Hf. destruct (Flush_cases b w) as (r2 & b2 & w2 & Hf2 & Hwr & Hs & Hl & _).
  rewrite Hf in Hf2. inversion Hf2; subst. unfold wf, view in *. split_and!; [lia|done|].
  rewrite Hwr. revert Hf. unfold Flush, Buffered. go_unfold.
  destruct (err b); [by intros [= <- <- <-]|].
  destruct (length (buf b) =? 0); [by intros [= <- <- <-]|].
  destruct (sink_Write_contract (wr b) (buf b) w) as (n & e & w1 & Hw & Hn & Hfull & _).
  rewrite Hw. apply sink_Write_appends in Hw.
  destruct e; [|destruct (Nat.ltb_spec n (length (buf b)))]; intros [= <- <- <-]; simpl;
    rewrite Hw, <- app_assoc; [by rewrite take_drop..|].
  rewrite firstn_all2 by lia. by rewrite app_nil_r.
Qed.

(** C23: Error path: [Flush] to a file on a disk with room for only [k] of the
    buffered bytes writes those [k], keeps the rest buffered, and makes the
    disk's error sticky. *)
Theorem Flush_short_write b path w :
  err b = None -> wr b = SinkFile path -> w_disk_free w < length (buf b) ->
  exists w', Flush b w =
    (Done (Some ("write " ++ path ++ ": no space left on device")%string,
           set_err (set_buf b (skipn (w_disk_free w) (buf b)))
                   (Some ("write " ++ path ++ ": no space left on device")%string)), w') /\
    file_contents (w_fs w') path = file_contents (w_fs w) path ++ firstn (w_disk_free w) (buf b) /\
    w_disk_free w' = 0.
Proof.
  intros He Hwr Hfree. unfold Flush, Buffered. rewrite He, Hwr.
  destruct (Nat.eqb_spec (length (buf b)) 0); [lia|].
  unfold st_bind. simpl. unfold file_Write. rewrite Nat.min_r by lia.
  destruct (Nat.ltb_spec (w_disk_free w) (length (buf b))); [|lia].
  eexists. split; [reflexivity|]. simpl. unfold file_contents at 1.
  rewrite lookup_insert_eq. split; [done|lia].
Qed.

(** A write that fits in the free part of a healthy buffer is only
    copied into it: the sink is not touched. *)
Lemma Write_buffers b p w :
  err b = None -> length p <= Available b ->
  Write b p w = (Done (length p, None, set_buf b (buf b ++ p)), w).
Proof.
  intros He Hp. unfold Write, write_fuel. rewrite write_loop_S.
  replace (Available b <? length p) with false by (symmetry; apply Nat.ltb_ge; lia).
  cbv [andb st_bind st_ret]. rewrite He, Nat.min_r, firstn_all by lia. reflexivity.
Qed.

(** More fuel does not change a result the loop has reached. *)
Lemma write_loop_mono f b p nn w r w' :
  write_loop f b p nn w = (Done (Some r), w') ->
  write_loop (S f) b p nn w = (Done (Some r), w').
Proof.
  revert b p nn w. induction f as [|f IH]; intros b p nn w Hl; [discriminate|].
  rewrite write_loop_S in Hl |- *. cbv zeta in *.
  destruct ((Available b <? length p) && bool_decide (err b = None)); [|done].
  destruct (Buffered b =? 0); unfold st_bind in *.
  - destruct (sink_Write (wr b) p w) as [[[n e]|c] w1]; [by apply IH|done].
  - destruct (Flush _ w) as [[[r1 b1]|c] w1]; [by apply IH|done].
Qed.

(** C19: The bound [write_fuel] of the loop of [Write] is no truncation: any
    larger bound gives the same run, for every writer, input and world. *)
Theorem write_loop_fuel_enough f b p nn w :
  write_fuel <= f -> write_loop f b p nn w = write_loop write_fuel b p nn w.
Proof.
  intros Hf. destruct (write_loop_terminates b p nn w) as (r & w' & Hl). rewrite Hl.
  induction Hf as [|f Hf IH]; [done|]. by apply write_loop_mono.
Qed.

(** ** Witnesses *)

Lemma write_loop_fuel_enough_witness :
  write_loop 7 (NewWriter SinkStdout) (bytes_of "hi") 0 (bufio_world 10) =
  write_loop write_fuel (NewWriter SinkStdout) (bytes_of "hi") 0 (bufio_world 10).
Proof. apply write_loop_fuel_enough. unfold write_fuel. lia. Defined.

Lemma Write_preserves_wf_witness :
  let b' := mkWriter None (bytes_of "hi") defaultBufSize SinkStdout in
  wf b' /\ wr b' = SinkStdout /\ size b' = defaultBufSize.
Proof.
  apply (Write_preserves_wf (NewWriter SinkStdout) (bytes_of "hi") (bufio_world 10) 2 None _
           (bufio_world 10)); [unfold wf; simpl; lia | reflexivity].
Defined.

Lemma Flush_keeps_view_witness :
  let b := mkWriter None (bytes_of "hello") defaultBufSize (SinkFile "out.txt") in
  let w := bufio_world 3 in
  exists r b' w', Flush b w = (Done (r, b'), w') /\ wf b' /\ wr b' = wr b /\ view w' b' = view w b.
Proof.
  intros b w. subst b w. do 3 eexists. split; [reflexivity|].
  eapply Flush_keeps_view; [unfold wf, defaultBufSize; simpl; lia | reflexivity].
Defined.

Lemma Write_sticky_error_witness :
  Write (mkWriter (Some "disk full") [] defaultBufSize SinkStdout) (bytes_of "x") (bufio_world 10) =
  (Done (0, Some "disk full", mkWriter (Some "disk full") [] defaultBufSize SinkStdout), bufio_world 10).
Proof. apply Write_sticky_error. reflexivity. Defined.

Lemma Flush_short_write_witness :
  let b := mkWriter None (bytes_of "hello") defaultBufSize (SinkFile "out.txt") in
  let w := bufio_world 3 in
  exists w', Flush b w =
    (Done (Some ("write " ++ "out.txt" ++ ": no space left on device")%string,
           set_err (set_buf b (skipn (w_disk_free w) (buf b)))
                   (Some ("write " ++ "out.txt" ++ ": no space left on device")%string)), w') /\
    file_contents (w_fs w') "out.txt" = file_contents (w_fs w) "out.txt" ++ firstn (w_disk_free w) (buf b) /\
    w_disk_free w' = 0.
Proof. intros b w. apply Flush_short_write; [reflexivity | reflexivity | subst b w; simpl; lia]. Defined.

End Bufio.
