(* ===== verification/Flag.v ===== *)
(** * Go's [flag] package, for the one flag main.go defines

    main.go declares [outputPath := flag.String("o", "", ...)] and calls
    [flag.Parse()], which parses [os.Args[1:]] with the [CommandLine] flag
    set and [ExitOnError].  This file models [FlagSet.parseOne] for a set
    whose only flag is the string flag [o], the loop of [FlagSet.Parse]
    (with fuel, shown sufficient), and the exits of [ExitOnError]: status
    0 after [-h] or [-help], status 2 after any other parse error, each
    after the message and the usage text on standard error.  Parsing stops
    at the first argument that is not a flag, so a flag written after the
    URL is a positional argument. *)

From S2P Require Import Prelude GoRuntime.

Module Flag.

(** The errors [parseOne] returns: [flag.ErrHelp], or the error built by
    [failf]. *)
Inductive flag_error : Type :=
| ErrHelp
| ErrMsg (msg : string).

(** The outcome of one call of [parseOne]: a flag was seen (with the new
    value of [o] and the arguments left), parsing stopped (arguments
    left), or an error. *)
Inductive step : Type :=
| Seen (o : string) (rest : list string)
| Stop (rest : list string)
| Fail (e : flag_error).

Definition dash : ascii := "-"%char.
Definition equals : ascii := "="%char.

(** [for i := 1; i < len(name); i++ { if name[i] == '=' { ... } }] on the
    characters after the first: the name before the first ['='] and the
    value after it, if there is one. *)
Fixpoint cut_equals (s : string) : string * option string :=
  match s with
  | EmptyString => (EmptyString, None)
  | String c tl =>
      if Ascii.eqb c equals then (EmptyString, Some tl)
      else let '(n, v) := cut_equals tl in (String c n, v)
  end.

(** The name and value of a flag argument once its dashes are removed:
    [name[0]] is never ['='], so the search starts at index 1. *)
Definition split_name (name : string) : string * option string :=
  match name with
  | EmptyString => (EmptyString, None)
  | String c tl => let '(n, v) := cut_equals tl in (String c n, v)
  end.

(** [f.parseOne()] with [f.formal = {"o": string flag}]; [o] is the
    current value of the flag. *)
Definition parseOne (o : string) (args : list string) : step :=
  match args with
  | [] => Stop []
  | s :: rest =>
      match s with
      | String c0 (String c1 tl) =>
          if negb (Ascii.eqb c0 dash) then Stop args
          else if Ascii.eqb c1 dash && String.eqb tl EmptyString then Stop rest
          else
            let name := if Ascii.eqb c1 dash then tl else String c1 tl in
            match name with
            | EmptyString => Fail (ErrMsg ("bad flag syntax: " ++ s)%string)
            | String n0 _ =>
                if Ascii.eqb n0 dash || Ascii.eqb n0 equals
                then Fail (ErrMsg ("bad flag syntax: " ++ s)%string)
                else
                  let '(fname, value) := split_name name in
                  if String.eqb fname "o" then
                    match value, rest with
                    | Some v, _ => Seen v rest
                    | None, v :: rest' => Seen v rest'
                    | None, [] => Fail (ErrMsg ("flag needs an argument: -" ++ fname)%string)
                    end
                  else if String.eqb fname "help" || String.eqb fname "h" then Fail ErrHelp
                  else Fail (ErrMsg ("flag provided but not defined: -" ++ fname)%string)
            end
      | _ => Stop args
      end
  end.

(** The result of parsing: the value of [-o] and the positional
    arguments [flag.Args()], or the error that ended the loop. *)
Inductive result : Type :=
| POk (o : string) (positional : list string)
| PErr (e : flag_error).

(** The loop of [f.Parse(arguments)]: [parseOne] until it sees no flag.
    [None] means the fuel ran out ([parse_loop_terminates] shows that one
    round per argument, plus one, is enough). *)
Fixpoint parse_loop (fuel : nat) (o : string) (args : list string) : option result :=
  match fuel with
  | O => None
  | S fuel =>
      match parseOne o args with
      | Seen o' rest => parse_loop fuel o' rest
      | Stop rest => Some (POk o rest)
      | Fail e => Some (PErr e)
      end
  end.

(** Parsing of [os.Args[1:]] from the default value [""] of [-o]. *)
Definition parse_args (args : list string) : option result :=
  parse_loop (S (length args)) EmptyString args.

Definition tab : string := String "009"%char EmptyString.

(** The default [flag.Usage] of the command line: ["Usage of %s:\n"] with
    [os.Args[0]], then [PrintDefaults()] for the flag [o] (its default is
    the zero value, so it is not printed). *)
Definition usage_text (prog : string) : string :=
  ("Usage of " ++ prog ++ ":" ++ String "010"%char EmptyString ++
   "  -o string" ++ String "010"%char EmptyString ++
   "    " ++ tab ++ "Output file (leave blank to output to stdout)")%string.

(** [f.usage()]: the usage text on standard error. *)
Definition usage : M unit :=
  fun w => fmt_Eprintln (usage_text (w_prog w)) w.

(** [flag.Parse()] with [ExitOnError]: the value of [-o] and the
    positional arguments, or the exit.  [failf] prints the message then
    the usage; [ErrHelp] comes after [usage] alone. *)
Definition Parse : M (string * list string) :=
  fun w =>
    match parse_args (w_args w) with
    | Some (POk o pos) => (Done (o, pos), w)
    | Some (PErr ErrHelp) => st_bind usage (fun _ => os_Exit 0) w
    | Some (PErr (ErrMsg m)) =>
        st_bind (fmt_Eprintln m) (fun _ => st_bind usage (fun _ => os_Exit 2)) w
    | None => (Exited 2, w)
    end.

(** [flag.NArg()]. *)
Definition NArg (pos : list string) : nat := length pos.

(** Whether an argument stops flag parsing: shorter than two bytes, or
    not starting with ['-']. *)
Definition not_flag (s : string) : bool :=
  match s with
  | String c0 (String _ _) => negb (Ascii.eqb c0 dash)
  | _ => true
  end.

(** ** Termination of the parse loop *)

(** A flag that is seen consumes at least one argument. *)
Lemma parseOne_seen_shorter o args o' rest :
  parseOne o args = Seen o' rest -> length rest < length args.
Proof.
  unfold parseOne. intros H.
  repeat (case_match; simplify_eq/=; try discriminate); simpl; lia.
Qed.

(** C24: [Parse] ends: with one round per argument and one more, the loop
    always returns a result, whatever the arguments. *)
Theorem parse_loop_terminates fuel o args :
  length args < fuel -> exists r, parse_loop fuel o args = Some r.
Proof.
  revert o args. induction fuel as [|fuel IH]; intros o args Hlt; [lia|].
  simpl. destruct (parseOne o args) as [o' rest|rest|e] eqn:Hp; eauto.
  apply IH. apply parseOne_seen_shorter in Hp. lia.
Qed.

(** ** Functional behaviour *)

(** Parsing stops at the first argument that is not a flag: [-o] keeps
    its value and every argument from there on is positional, flags
    included. *)
Theorem parse_stops_at_positional fuel o s rest :
  not_flag s = true -> parse_loop (S fuel) o (s :: rest) = Some (POk o (s :: rest)).
Proof.
  intros Hs. simpl. unfold parseOne.
  destruct s as [|c0 [|c1 tl]]; simpl in Hs |- *; try done.
  by rewrite Hs.
Qed.

(** [-o v] sets the flag to [v] and parsing goes on with the rest. *)
Lemma parse_o_space fuel o v rest :
  parse_loop (S fuel) o ("-o" :: v :: rest) = parse_loop fuel v rest.
Proof. reflexivity. Qed.

(** [-o] as the last argument is the error "flag needs an argument". *)
Theorem parse_o_missing_argument fuel o :
  parse_loop (S fuel) o ["-o"] = Some (PErr (ErrMsg "flag needs an argument: -o")).
Proof. reflexivity. Qed.

Lemma Parse_ok w o pos :
  parse_args (w_args w) = Some (POk o pos) -> Parse w = (Done (o, pos), w).
Proof. intros H. unfold Parse. by rewrite H. Qed.

(** [-h] (or [-help]) as the first argument prints the usage on standard
    error and exits with status 0, before any URL is looked at. *)
Theorem Parse_help_exits_0 w rest :
  w_args w = "-h" :: rest ->
  Parse w = (Exited 0, upd_stderr (fun e => e ++ bytes_of (usage_text (w_prog w)) ++ newline) w).
Proof. intros H. unfold Parse, parse_args. rewrite H. reflexivity. Qed.

(** Any other parse error prints the message and the usage on standard
    error and exits with status 2. *)
Theorem Parse_error_exits_2 w m :
  parse_args (w_args w) = Some (PErr (ErrMsg m)) ->
  Parse w = (Exited 2, upd_stderr (fun e => e ++ bytes_of (usage_text (w_prog w)) ++ newline)
                         (upd_stderr (fun e => e ++ bytes_of m ++ newline) w)).
Proof. intros H. unfold Parse. by rewrite H. Qed.

(** ** Witnesses *)

Lemma parse_loop_terminates_witness :
  exists r, parse_loop 4 EmptyString ["-o"; "out.txt"; "http://example.com/"] = Some r.
Proof. apply parse_loop_terminates. simpl. lia. Defined.

End Flag.
