(* ===== verification/Webfetch.v ===== *)
(** * main.go: [getWriter], [writeContents] and [main]

    The three functions of [src/main.go], written in the monad [M] of
    [GoRuntime.v] with the library models of [Bufio.v], [Flag.v] and the
    [UrlLib] interface of [GoUrl.v]; [run] is the process: the exit status
    ([0] when [main] returns) and the final world.  The theorems cover
    every way a run ends: success on standard output and on a new file,
    each of the error exits, and what each leaves on standard output, on
    disk and in the open handles; [main_wp] then carries the run-wide
    properties (exit status, requests made, paths changed) through every
    branch of [main], for every [UrlLib]. *)

From S2P Require Import Prelude GoRuntime Bufio Flag GoUrl.

Section Webfetch.
Context `{!UrlLib}.

(** [getWriter(path)]: standard output for an empty path; otherwise exit
    if [os.Stat] finds an entry, exit if [os.Create] fails, and wrap the
    new file. *)
Definition getWriter (path : string) : M Bufio.Writer :=
  if String.eqb path EmptyString then
    fmt_Println "Empty output. Using os.Stdout" ;;
    mret (Bufio.NewWriter SinkStdout)
  else
    serr ← os_Stat path;
    (match serr with
     | None => fmt_Println "The file already exists" ;; os_Exit 1
     | Some _ => mret tt
     end) ;;
    r ← os_Create path;
    match r with
    | inr err => fmt_Println err ;; os_Exit 1
    | inl outputFile =>
        fmt_Print ("Valid output file. Using file " ++ outputFile ++ nl)%string ;;
        mret (Bufio.NewWriter (SinkFile outputFile))
    end.

(** [writeContents(content, w)]: [defer w.Flush()], then the content and
    a newline.  The results of [Write] and [Flush] are ignored, as in the
    source. *)
Definition writeContents (content : bytes) (w : Bufio.Writer) : M unit :=
  st_bind
    (deferred
       ('(_, _, w) ← Bufio.Write w content;
        '(_, _, w) ← Bufio.Write w (bytes_of nl);
        mret w)
       (fun w => '(_, _) ← Bufio.Flush w; mret tt))
    (fun _ => mret tt).

(** [main()]: parse the flags, check there is one positional argument,
    validate it, get the writer, fetch, read the body with a deferred
    [Close] registered after the read, and write. *)
Definition main : M unit :=
  '(outputPath, args) ← Flag.Parse;
  (if negb (Flag.NArg args =? 1)
   then fmt_Println "Url must be specified" ;; os_Exit 1
   else mret tt) ;;
  match ParseRequestURI (nth 0 args EmptyString) with
  | inr err => fmt_Println err ;; os_Exit 1
  | inl dataURL =>
      writer ← getWriter outputPath;
      r ← http_Get (url_String dataURL);
      match r with
      | inr err => fmt_Println err ;; os_Exit 1
      | inl response =>
          '(content, err) ← ioutil_ReadAll response;
          deferred
            (match err with
             | Some e => fmt_Println e ;; os_Exit 1
             | None => writeContents content writer
             end)
            (fun _ => body_Close response)
      end
  end.

(** The process: exit status 0 when [main] returns. *)
Definition run (w : world) : Z * world :=
  match main w with
  | (Done _, w') => (0%Z, w')
  | (Exited c, w') => (c, w')
  end.

End Webfetch.

(** ** What every run respects

    [run_post w0 w]: from the start world [w0] to [w], at most one HTTP
    request was made, and the only path of the file system whose entry
    changed is the value given to [-o], where no entry existed before. *)
Definition run_post (w0 w : world) : Prop :=
  count_gets (w_trace w) <= S (count_gets (w_trace w0)) /\
  forall q, w_fs w !! q <> w_fs w0 !! q ->
    w_fs w0 !! q = None /\ exists pos, Flag.parse_args (w_args w0) = Some (Flag.POk q pos).

(** [fs_changed_only o fs0 fs]: every path whose entry differs between
    [fs0] and [fs] is [o], and [o] named nothing in [fs0]. *)
Definition fs_changed_only (o : string) (fs0 fs : gmap string entry) : Prop :=
  forall q, fs !! q <> fs0 !! q -> q = o /\ fs0 !! o = None.

(** [run_ok w0 w]: the run from [w0] to [w] went through the whole of
    [main]: one positional argument [u] that parses, a URL the client
    accepts, a server that sent the whole body, exactly one request made,
    and the body closed last, with no body left open. *)
Definition run_ok `{!UrlLib} (w0 w : world) : Prop :=
  exists o u U body,
    Flag.parse_args (w_args w0) = Some (Flag.POk o [u]) /\ ParseRequestURI u = inl U /\
    request_error (url_String U) = None /\ w_net w0 (url_String U) = NetResp body None /\
    count_gets (w_trace w) = S (count_gets (w_trace w0)) /\
    w_open_bodies w = w_open_bodies w0 /\ exists tr, w_trace w = tr ++ [EvCloseBody].

(** ** Concrete worlds

    Worlds used to run the model on the invocations of the spec: a server
    that answers [hello] at [http://example.com/], a body that breaks
    after three bytes at [http://broken.example/], and an unreachable host
    everywhere else; a disk with 100 free bytes, or 3. *)

Definition demo_net (u : string) : net_reply :=
  if String.eqb u "http://example.com/" then NetResp (bytes_of "hello") None
  else if String.eqb u "http://broken.example/" then NetResp (bytes_of "hel") (Some "unexpected EOF")
  else NetFail "dial tcp: lookup failed".

Definition demo_world (args : list string) (fs : gmap string entry) : world :=
  mkWorld args "webfetch" [] [] fs (fun _ => None) 100 demo_net 0 [] [].

Definition small_disk_world (args : list string) : world :=
  mkWorld args "webfetch" [] [] ∅ (fun _ => None) 3 demo_net 0 [] [].

(** What [url.ParseRequestURI] gives for [http://example.com/]. *)
Definition demo_url : GoUrl.URL :=
  GoUrl.mkURL "http" EmptyString None "example.com" "/" EmptyString false false.

(** A world where creating [out.txt] is refused. *)
Definition readonly_world (args : list string) : world :=
  mkWorld args "webfetch" [] [] ∅
    (fun p => if String.eqb p "out.txt" then Some "permission denied" else None)
    100 demo_net 0 [] [].

Section Runs.
Context `{!UrlLib}.

(** ** getWriter *)

Lemma eqb_empty_neq (s : string) : s <> EmptyString -> String.eqb s EmptyString = false.
Proof. apply String.eqb_neq. Qed.

(** An empty path gives a writer on standard output, after the message. *)
Lemma getWriter_stdout w :
  getWriter EmptyString w =
  (Done (Bufio.NewWriter SinkStdout),
   upd_stdout (fun o => o ++ bytes_of "Empty output. Using os.Stdout" ++ newline) w).
Proof. reflexivity. Qed.

(** A path where an entry already exists ends the process with status 1
    after the message; nothing is created or opened. *)
Lemma getWriter_existing path ent w :
  path <> EmptyString -> w_fs w !! path = Some ent ->
  getWriter path w =
  (Exited 1%Z, upd_stdout (fun o => o ++ bytes_of "The file already exists" ++ newline)
                 (log (EvStat path) w)).
Proof.
  intros Hp Hfs. unfold getWriter. rewrite eqb_empty_neq by done.
  go_unfold. unfold os_Stat. simpl. by rewrite Hfs.
Qed.

(** C15: A fresh path the OS refuses to create ends the process with status 1
    after the error of [os.Create]. *)
Theorem getWriter_create_error path e w :
  path <> EmptyString -> w_fs w !! path = None -> w_create_err w path = Some e ->
  getWriter path w =
  (Exited 1%Z, upd_stdout (fun o => o ++ bytes_of ("open " ++ path ++ ": " ++ e)%string ++ newline)
                 (log (EvCreate path) (log (EvStat path) w))).
Proof.
  intros Hp Hfs He. unfold getWriter. rewrite eqb_empty_neq by done.
  go_unfold. unfold os_Stat, os_Create. simpl. rewrite Hfs. simpl. by rewrite He.
Qed.

(** A fresh path is created empty and opened, and the writer wraps it. *)
Lemma getWriter_new_file path w :
  path <> EmptyString -> w_fs w !! path = None -> w_create_err w path = None ->
  getWriter path w =
  (Done (Bufio.NewWriter (SinkFile path)),
   upd_stdout (fun o => o ++ bytes_of ("Valid output file. Using file " ++ path ++ nl)%string)
     (upd_files (fun fs => path :: fs) (upd_fs (insert path (EFile []))
        (log (EvCreate path) (log (EvStat path) w))))).
Proof.
  intros Hp Hfs He. unfold getWriter. rewrite eqb_empty_neq by done.
  go_unfold. unfold os_Stat, os_Create. simpl. rewrite Hfs. simpl. rewrite He, Hfs. reflexivity.
Qed.

(** ** writeContents *)

(** On a sink with room for the buffered bytes, the content and the
    newline, [writeContents] delivers all of them to the sink, in order,
    through its deferred [Flush]; nothing but that sink changes. *)
Lemma writeContents_delivers content b w :
  Bufio.err b = None -> Bufio.wf b ->
  sink_room w (Bufio.wr b) (length (Bufio.buf b) + length content + 1) ->
  exists w', writeContents content b w = (Done tt, w') /\
    sink_contents w' (Bufio.wr b) =
      sink_contents w (Bufio.wr b) ++ Bufio.buf b ++ content ++ newline /\
    frame_except (Bufio.wr b) w w'.
Proof.
  intros He Hwf Hroom.
  destruct (Bufio.Write_refines b content w 1 He Hwf Hroom)
    as (b1 & w1 & Hw1 & He1 & Hwr1 & _ & Hwf1 & Hv1 & Hr1 & Hf1).
  destruct (Bufio.Write_refines b1 (bytes_of nl) w1 0 He1 Hwf1)
    as (b2 & w2 & Hw2 & He2 & Hwr2 & _ & Hwf2 & Hv2 & Hr2 & Hf2);
    [rewrite Hwr1; eapply sink_room_eq; [|exact Hr1]; simpl; lia|].
  destruct (Bufio.Flush_healthy b2 w2 He2)
    as (b3 & w3 & Hw3 & _ & _ & _ & _ & Hc3 & _ & Hf3);
    [rewrite Hwr2; eapply sink_room_eq; [|exact Hr2]; lia|].
  exists w3. unfold writeContents. go_unfold. rewrite Hw1, Hw2, Hw3.
  unfold Bufio.view in *. rewrite Hwr1 in *. rewrite Hwr2 in *.
  split_and!; [done| |by do 2 etrans].
  rewrite Hc3, Hv2, Hv1, <- !app_assoc. done.
Qed.

(** Whatever its sink does, [writeContents] returns and changes nothing
    but that sink. *)
Lemma writeContents_frame content b w :
  exists w', writeContents content b w = (Done tt, w') /\ frame_except (Bufio.wr b) w w'.
Proof.
  destruct (Bufio.Write_frame b content w) as (n1 & e1 & b1 & w1 & Hw1 & Hr1 & Hf1).
  destruct (Bufio.Write_frame b1 (bytes_of nl) w1) as (n2 & e2 & b2 & w2 & Hw2 & Hr2 & Hf2).
  destruct (Bufio.Flush_cases b2 w2) as (r3 & b3 & w3 & Hw3 & _ & _ & _ & _ & Hf3).
  exists w3. unfold writeContents. go_unfold. rewrite Hw1, Hw2, Hw3. split; [done|].
  rewrite Hr2, Hr1 in Hf3. rewrite Hr1 in Hf2. by do 2 etrans.
Qed.

(** On a file whose disk has room for fewer bytes than the content and
    the newline, all of which fit in the buffer, [writeContents] still
    returns: the deferred [Flush] writes what fits, and its error is
    dropped. *)
Lemma writeContents_disk_full content path w :
  length content + 1 <= Bufio.defaultBufSize -> w_disk_free w < length content + 1 ->
  exists w', writeContents content (Bufio.NewWriter (SinkFile path)) w = (Done tt, w') /\
    file_contents (w_fs w') path =
      file_contents (w_fs w) path ++ firstn (w_disk_free w) (content ++ newline) /\
    frame_except (SinkFile path) w w'.
Proof.
  intros Hbuf Hfree. unfold Bufio.defaultBufSize in Hbuf. set (b0 := Bufio.NewWriter (SinkFile path)).
  assert (Hw1 := Bufio.Write_buffers b0 content w eq_refl ltac:(unfold Bufio.Available; simpl; lia)).
  set (b1 := Bufio.set_buf b0 (Bufio.buf b0 ++ content)) in Hw1.
  assert (Hw2 := Bufio.Write_buffers b1 (bytes_of nl) w eq_refl
                   ltac:(unfold Bufio.Available; simpl; unfold Bufio.defaultBufSize; lia)).
  set (b2 := Bufio.set_buf b1 (Bufio.buf b1 ++ bytes_of nl)) in Hw2.
  destruct (Bufio.Flush_short_write b2 path w eq_refl eq_refl
              ltac:(simpl; rewrite length_app; simpl; lia)) as (w3 & Hw3 & Hc3 & _).
  destruct (Bufio.Flush_cases b2 w) as (r3 & b3 & w3' & Hw3' & _ & _ & _ & _ & Hf3).
  rewrite Hw3 in Hw3'. injection Hw3' as _ Hw. subst w3'.
  exists w3. unfold writeContents. go_unfold. rewrite Hw1, Hw2, Hw3. split_and!; [done| |done].
  rewrite Hc3. done.
Qed.

(** Every run of [getWriter] makes no request; it either exits with
    status 1 leaving the file system as it was, or returns a writer on
    standard output (for the empty path, file system unchanged) or on a
    file at [path] where nothing existed, now an empty file. *)
Lemma getWriter_wp path w :
  wp (getWriter path)
    (fun b w' => count_gets (w_trace w') = count_gets (w_trace w) /\
       w_net w' = w_net w /\ w_open_bodies w' = w_open_bodies w /\
       Bufio.err b = None /\ Bufio.buf b = [] /\
       ((path = EmptyString /\ Bufio.wr b = SinkStdout /\ w_fs w' = w_fs w) \/
        (Bufio.wr b = SinkFile path /\ w_fs w !! path = None /\
         w_fs w' = <[path := EFile []]> (w_fs w))))
    (fun c w' => c = 1%Z /\ w_fs w' = w_fs w /\ count_gets (w_trace w') = count_gets (w_trace w))
    w.
Proof.
  destruct (String.eqb_spec path EmptyString) as [->|Hne].
  { rewrite (wp_run _ _ _ _ _ _ (getWriter_stdout w)). simpl. split_and!; auto. }
  unfold wp, getWriter. rewrite eqb_empty_neq by done. go_unfold. unfold os_Stat, os_Create.
  cbn -[count_gets]. destruct (w_fs w !! path) eqn:Hfs; cbn -[count_gets];
    rewrite ?count_gets_snoc; cbn -[count_gets]; [split_and!; auto; lia|].
  destruct (w_create_err w path); cbn -[count_gets]; rewrite ?Hfs, ?count_gets_snoc;
    cbn -[count_gets]; [split_and!; auto; lia|].
  split_and!; auto; try (rewrite !count_gets_snoc; simpl; lia).
Qed.

(** C14: [writeContents] on the writer [getWriter] returns, a fresh
    [bufio.NewWriter]: when the sink has room for the content and the
    newline, it ends up holding exactly what it held, then the content,
    then one newline, and nothing else in the world changes. *)
Theorem writeContents_fresh_writer content s w :
  sink_room w s (length content + 1) ->
  exists w', writeContents content (Bufio.NewWriter s) w = (Done tt, w') /\
    sink_contents w' s = sink_contents w s ++ content ++ newline /\
    frame_except s w w'.
Proof.
  intros Hroom.
  destruct (writeContents_delivers content (Bufio.NewWriter s) w) as (w' & Hw & Hc & Hf);
    [done | unfold Bufio.wf; simpl; lia | done |].
  by exists w'.
Qed.

(** ** Whole runs *)

#[local] Opaque getWriter writeContents.

(** Run [writeContents] on a fresh writer in the goal, through a lemma
    [L] of the shape of [writeContents_delivers]. *)
Ltac exec_writeContents L Hc Hf :=
  match goal with
  | |- context [writeContents ?c ?b ?w0] =>
      let Hw := fresh "Hw" in
      destruct (L c b w0) as (? & Hw & Hc & Hf);
      [reflexivity | unfold Bufio.wf; simpl; lia | simpl; try lia | rewrite Hw; simpl]
  end.

(** C1: Success on standard output: with one URL argument that parses and a
    server that sends [body], the process exits with status 0, standard
    output holds the message of [getWriter] then [body] and one newline,
    the file system is untouched, exactly one request was made and the
    response body was closed. *)
Theorem main_writes_body_to_stdout w u U body :
  Flag.parse_args (w_args w) = Some (Flag.POk EmptyString [u]) ->
  ParseRequestURI u = inl U -> request_error (url_String U) = None ->
  w_net w (url_String U) = NetResp body None ->
  exists w', run w = (0%Z, w') /\
    w_stdout w' = w_stdout w ++ bytes_of "Empty output. Using os.Stdout" ++ newline ++
                  body ++ newline /\
    w_fs w' = w_fs w /\ w_open_bodies w' = w_open_bodies w /\
    count_gets (w_trace w') = S (count_gets (w_trace w)).
Proof.
  intros Hargs Hp Hreq Hnet. unfold run, main. go_unfold.
  rewrite (Flag.Parse_ok _ _ _ Hargs). simpl. rewrite Hp, getWriter_stdout. unfold http_Get. rewrite Hreq. simpl.
  rewrite Hnet. simpl.
  exec_writeContents writeContents_delivers Hc Hf. destruct Hf as (_&_&_&_&_&Hb&_&Hg&Hfs&_).
  eexists. split; [reflexivity|]. simpl in *.
  rewrite Hc, Hfs, Hb, count_gets_snoc, Hg, count_gets_snoc. simpl.
  rewrite <- !app_assoc. split_and!; auto. rewrite count_gets_snoc. simpl. lia.
Qed.

(** C2: Success on a new file: with [-o p] for a path where nothing exists
    and a disk with room for the body and the newline, the process exits
    with status 0, the file [p] holds exactly [body] and one newline, no
    other path changes, standard output holds only the message of
    [getWriter], one request was made and the body was closed.  The file
    itself stays open: main.go never closes it. *)
Theorem main_writes_body_to_new_file w p u U body :
  Flag.parse_args (w_args w) = Some (Flag.POk p [u]) -> p <> EmptyString ->
  w_fs w !! p = None -> w_create_err w p = None ->
  ParseRequestURI u = inl U -> request_error (url_String U) = None ->
  w_net w (url_String U) = NetResp body None ->
  length body + 1 <= w_disk_free w ->
  exists w', run w = (0%Z, w') /\
    w_fs w' = <[p := EFile (body ++ newline)]> (w_fs w) /\
    w_stdout w' = w_stdout w ++ bytes_of ("Valid output file. Using file " ++ p ++ nl)%string /\
    w_open_bodies w' = w_open_bodies w /\ w_open_files w' = p :: w_open_files w /\
    count_gets (w_trace w') = S (count_gets (w_trace w)).
Proof.
  intros Hargs Hne Hfs Hce Hp Hreq Hnet Hroom. unfold run, main. go_unfold.
  rewrite (Flag.Parse_ok _ _ _ Hargs). simpl. rewrite Hp.
  rewrite getWriter_new_file by done. unfold http_Get. rewrite Hreq. simpl. rewrite Hnet. simpl.
  exec_writeContents writeContents_delivers Hc Hf. destruct Hf as (_&_&_&_&_&Hb&Hof&Hg&Hso&Hq&Hef).
  eexists. split; [reflexivity|]. simpl in *.
  rewrite Hso, Hb, Hof, count_gets_snoc, Hg, !count_gets_snoc. simpl.
  split_and!; auto; [|lia].
  rewrite (fs_after_file_write _ _ p [] (body ++ newline) (lookup_insert_eq _ _ _) Hq Hef).
  - apply insert_insert_eq.
  - rewrite Hc. unfold file_contents. by rewrite lookup_insert_eq.
Qed.

(** C4: Usage error: when the number of positional arguments is not one, the
    process prints "Url must be specified" and exits with status 1; the
    world is otherwise untouched, so no request is made and no file is
    created. *)
Theorem main_rejects_argument_count w o pos :
  Flag.parse_args (w_args w) = Some (Flag.POk o pos) -> length pos <> 1 ->
  run w = (1%Z, upd_stdout (fun out => out ++ bytes_of "Url must be specified" ++ newline) w).
Proof.
  intros Hargs Hn. unfold run, main. go_unfold.
  rewrite (Flag.Parse_ok _ _ _ Hargs). simpl. unfold Flag.NArg.
  by rewrite (proj2 (Nat.eqb_neq _ _) Hn).
Qed.

(** C5: Validation error: when the one positional argument does not parse,
    the process prints the parse error and exits with status 1, before any
    file is looked at or any request made. *)
Theorem main_rejects_invalid_url w o u e :
  Flag.parse_args (w_args w) = Some (Flag.POk o [u]) -> ParseRequestURI u = inr e ->
  run w = (1%Z, upd_stdout (fun out => out ++ bytes_of e ++ newline) w).
Proof.
  intros Hargs Hp. unfold run, main. go_unfold.
  rewrite (Flag.Parse_ok _ _ _ Hargs). simpl. by rewrite Hp.
Qed.

(** C3: No overwrite: when [-o] names a path where an entry exists, the
    process prints "The file already exists" and exits with status 1 after
    one [os.Stat]; the file system and the network are untouched. *)
Theorem main_refuses_existing_output w p u U ent :
  Flag.parse_args (w_args w) = Some (Flag.POk p [u]) -> p <> EmptyString ->
  ParseRequestURI u = inl U -> w_fs w !! p = Some ent ->
  run w = (1%Z, upd_stdout (fun out => out ++ bytes_of "The file already exists" ++ newline)
                  (log (EvStat p) w)).
Proof.
  intros Hargs Hne Hp Hfs. unfold run, main. go_unfold.
  rewrite (Flag.Parse_ok _ _ _ Hargs). simpl. rewrite Hp.
  by rewrite (getWriter_existing p ent) by done.
Qed.

(** C6: Transport error after [-o]: the output file is created before the
    request, so when [http.Get] fails the process exits with status 1 and
    leaves an empty file at [p], still open. *)
Theorem main_transport_error_leaves_empty_file w p u U e :
  Flag.parse_args (w_args w) = Some (Flag.POk p [u]) -> p <> EmptyString ->
  w_fs w !! p = None -> w_create_err w p = None ->
  ParseRequestURI u = inl U -> request_error (url_String U) = None ->
  w_net w (url_String U) = NetFail e ->
  exists w', run w = (1%Z, w') /\
    w_fs w' = <[p := EFile []]> (w_fs w) /\ w_open_files w' = p :: w_open_files w /\
    w_stdout w' = w_stdout w ++ bytes_of ("Valid output file. Using file " ++ p ++ nl)%string ++
                  bytes_of ("Get " ++ quote (url_String U) ++ ": " ++ e)%string ++ newline.
Proof.
  intros Hargs Hne Hfs Hce Hp Hreq Hnet. unfold run, main. go_unfold.
  rewrite (Flag.Parse_ok _ _ _ Hargs). simpl. rewrite Hp.
  rewrite getWriter_new_file by done. unfold http_Get. rewrite Hreq. simpl. rewrite Hnet. simpl.
  eexists. split; [reflexivity|]. simpl. by rewrite <- app_assoc.
Qed.

(** C7: Read error: when reading the body fails, [os.Exit(1)] runs before the
    deferred [response.Body.Close()], so the process exits with status 1
    with the body still open and nothing written but the error. *)
Theorem main_read_error_leaves_body_open w u U body e :
  Flag.parse_args (w_args w) = Some (Flag.POk EmptyString [u]) ->
  ParseRequestURI u = inl U -> request_error (url_String U) = None ->
  w_net w (url_String U) = NetResp body (Some e) ->
  exists w', run w = (1%Z, w') /\
    w_open_bodies w' = S (w_open_bodies w) /\
    w_stdout w' = w_stdout w ++ bytes_of "Empty output. Using os.Stdout" ++ newline ++
                  bytes_of e ++ newline /\
    w_fs w' = w_fs w.
Proof.
  intros Hargs Hp Hreq Hnet. unfold run, main. go_unfold.
  rewrite (Flag.Parse_ok _ _ _ Hargs). simpl. rewrite Hp, getWriter_stdout. unfold http_Get. rewrite Hreq. simpl.
  rewrite Hnet. simpl. eexists. split; [reflexivity|]. simpl.
  by rewrite <- app_assoc.
Qed.

(** ** What every run respects

    Whatever the arguments, the file system, the network and the
    implementation of [UrlLib], a run of [main] ends with status 0 only
    after [-h] or a complete fetch ([run_ok]), makes at most one request
    and changes no path but a fresh [-o] path.  [main_wp] carries the proof through each step of [main]. *)

(** A write through a sink of the writer [getWriter] returned keeps
    [fs_changed_only]. *)
Lemma fs_changed_only_sink o fs0 s w w' :
  (s = SinkStdout \/ (s = SinkFile o /\ fs0 !! o = None)) ->
  frame_except s w w' -> fs_changed_only o fs0 (w_fs w) -> fs_changed_only o fs0 (w_fs w').
Proof.
  intros [->|[-> Ho]] (_&_&_&_&_&_&_&_&Hs) Hc q Hq.
  - apply Hc. by rewrite <- (proj1 Hs).
  - destruct (decide (q = o)) as [->|Hne]; [done|]. apply Hc. by rewrite <- (proj1 (proj2 Hs) q Hne).
Qed.

Lemma run_post_of w0 w o pos :
  Flag.parse_args (w_args w0) = Some (Flag.POk o pos) ->
  count_gets (w_trace w) <= S (count_gets (w_trace w0)) ->
  fs_changed_only o (w_fs w0) (w_fs w) -> run_post w0 w.
Proof. intros Hpa Hc Hfs. split; [done|]. intros q Hq. destruct (Hfs q Hq) as [-> ?]. eauto. Qed.

Lemma run_post_same w0 w :
  w_fs w = w_fs w0 -> count_gets (w_trace w) <= S (count_gets (w_trace w0)) -> run_post w0 w.
Proof. intros Hfs Hc. split; [done|]. intros q Hq. by rewrite Hfs in Hq. Qed.

Lemma getWriter_changed_only o w0 b w1 :
  (o = EmptyString /\ Bufio.wr b = SinkStdout /\ w_fs w1 = w_fs w0) \/
  (Bufio.wr b = SinkFile o /\ w_fs w0 !! o = None /\ w_fs w1 = <[o := EFile []]> (w_fs w0)) ->
  (Bufio.wr b = SinkStdout \/ (Bufio.wr b = SinkFile o /\ w_fs w0 !! o = None)) /\
  fs_changed_only o (w_fs w0) (w_fs w1).
Proof.
  intros [(_ & Hb & Hfs)|(Hb & Ho & Hfs)]; (split; [auto|]); intros q; rewrite Hfs; [done|].
  destruct (decide (q = o)) as [->|Hne]; [done|]. by rewrite lookup_insert_ne by congruence.
Qed.

(** An exit of [main] keeps the file system and makes no request. *)
Ltac exit_post := split; [intros ?; first [done | discriminate] | apply run_post_same; simpl; auto].

Lemma main_wp w0 :
  wp main (fun _ w => run_post w0 w /\ run_ok w0 w)
    (fun c w => (c = 0 -> Flag.parse_args (w_args w0) = Some (Flag.PErr Flag.ErrHelp))%Z /\
                run_post w0 w) w0.
Proof.
  unfold wp, main. go_unfold. unfold Flag.Parse.
  destruct (Flag.parse_args (w_args w0)) as [[o pos|[|m]]|] eqn:Hpa; cbn -[count_gets]; try exit_post.
  destruct (Flag.NArg pos =? 1) eqn:Hn; cbn -[count_gets]; [|exit_post].
  destruct pos as [|u [|u' pos]]; try discriminate Hn. cbn -[count_gets].
  destruct (ParseRequestURI u) as [U|e] eqn:Hp; cbn -[count_gets]; [|exit_post].
  pose proof (getWriter_wp o w0) as Hgw. unfold wp in Hgw.
  destruct (getWriter o w0) as [[b|c] w1]; cbn -[count_gets].
  2:{ destruct Hgw as (-> & Hfs & Hc). exit_post. lia. }
  destruct Hgw as (Hc1 & Hn1 & Hb1 & _ & _ & [Hsink Hch]%getWriter_changed_only).
  unfold http_Get. destruct (request_error (url_String U)) eqn:Hreq; cbn -[count_gets].
  { split; [discriminate|]. eapply run_post_of; [done| |done]. simpl. lia. }
  destruct (w_net w1 (url_String U)) as [e|body re] eqn:Hnet; cbn -[count_gets].
  { split; [discriminate|]. eapply run_post_of; [done| |done]. simpl. rewrite count_gets_snoc. simpl. lia. }
  destruct re as [e|]; cbn -[count_gets].
  { split; [discriminate|]. eapply run_post_of; [done| |done]. simpl. rewrite !count_gets_snoc. simpl. lia. }
  match goal with |- context [writeContents ?c b ?w] =>
    destruct (writeContents_frame c b w) as (w2 & -> & Hf) end.
  cbn -[count_gets]. pose proof Hf as (_&_&_&_&Hn2&Hb2&_&Hg&_).
  assert (Hcount : count_gets (w_trace (log EvCloseBody (upd_bodies Init.Nat.pred w2))) =
                   S (count_gets (w_trace w0))).
  { simpl. rewrite count_gets_snoc, Hg. simpl. rewrite !count_gets_snoc. simpl. lia. }
  split; [eapply run_post_of; [done|lia|]|].
  - simpl. eapply fs_changed_only_sink; [exact Hsink|exact Hf|exact Hch].
  - exists o, u, U, body. rewrite <- Hn1. simpl in Hb2. split_and!; auto.
    + simpl. rewrite Hb2. simpl. congruence.
    + simpl. eauto.
Qed.

Lemma run_respects w :
  run_post w (snd (run w)) /\
  (fst (run w) = 0%Z -> Flag.parse_args (w_args w) = Some (Flag.PErr Flag.ErrHelp) \/ run_ok w (snd (run w))).
Proof.
  pose proof (main_wp w) as Hw. unfold wp in Hw. unfold run.
  destruct (main w) as [[[]|c] w']; simpl; [tauto|]. destruct Hw as [H0 Hp]. auto.
Qed.

(** C8: Exit status 0 means success: a run that ends with status 0 either
    printed the usage for [-h], or took one URL argument that parses and
    the client accepts, got the whole body from the server, made exactly
    one request and closed the body last.  No error path of main.go ends
    with status 0. *)
Theorem run_exit_0_means_fetched w :
  fst (run w) = 0%Z ->
  Flag.parse_args (w_args w) = Some (Flag.PErr Flag.ErrHelp) \/ run_ok w (snd (run w)).
Proof. apply run_respects. Qed.

(** C9: No overwrite, on every run: an entry that exists before the run is
    still there, unchanged, after it. *)
Theorem run_keeps_existing_entries w q e :
  w_fs w !! q = Some e -> w_fs (snd (run w)) !! q = Some e.
Proof.
  intros Hq. destruct (run_respects w) as ((_ & Hfs) & _).
  destruct (decide (w_fs (snd (run w)) !! q = w_fs w !! q)) as [->|Hne]; [done|].
  destruct (Hfs q Hne) as [Hn _]. congruence.
Qed.

(** C10: The only path a run can change is the value of [-o]. *)
Theorem run_changes_only_output_path w q :
  w_fs (snd (run w)) !! q <> w_fs w !! q ->
  exists pos, Flag.parse_args (w_args w) = Some (Flag.POk q pos).
Proof. intros Hq. destruct (run_respects w) as ((_ & Hfs) & _). apply (Hfs q Hq). Qed.

(** C11: At most one HTTP request is made by a run. *)
Theorem run_at_most_one_request w :
  count_gets (w_trace (snd (run w))) <= S (count_gets (w_trace w)).
Proof. apply run_respects. Qed.

(** C12: A full disk goes unreported: with [-o p] for a fresh path and a
    disk with room for fewer bytes than the body and its newline (a body
    that fits in the 4096-byte buffer), the process still exits with
    status 0, and [p] holds only the bytes that fitted.  main.go ignores
    the errors of [w.Write] and of the deferred [w.Flush]. *)
Theorem main_full_disk_exits_0 w p u U body :
  Flag.parse_args (w_args w) = Some (Flag.POk p [u]) -> p <> EmptyString ->
  w_fs w !! p = None -> w_create_err w p = None ->
  ParseRequestURI u = inl U -> request_error (url_String U) = None ->
  w_net w (url_String U) = NetResp body None ->
  length body + 1 <= Bufio.defaultBufSize -> w_disk_free w < length body + 1 ->
  exists w', run w = (0%Z, w') /\
    w_fs w' = <[p := EFile (firstn (w_disk_free w) (body ++ newline))]> (w_fs w).
Proof.
  intros Hargs Hne Hfs Hce Hp Hreq Hnet Hbuf Hfree. unfold run, main. go_unfold.
  rewrite (Flag.Parse_ok _ _ _ Hargs). simpl. rewrite Hp.
  rewrite getWriter_new_file by done. unfold http_Get. rewrite Hreq. simpl. rewrite Hnet. simpl.
  match goal with |- context [writeContents ?c ?b ?w0] =>
    destruct (writeContents_disk_full c p w0) as (w' & -> & Hc & Hf); [done|done|] end.
  simpl. eexists. split; [reflexivity|]. simpl.
  destruct Hf as (_&_&_&_&_&_&_&_&_&Hq&Hef).
  rewrite (fs_after_file_write _ _ p [] (firstn (w_disk_free w) (body ++ newline))
             (lookup_insert_eq _ _ _) Hq Hef); [apply insert_insert_eq|].
  rewrite Hc. simpl. unfold file_contents. by rewrite lookup_insert_eq.
Qed.

(** C16: [-h] as the first argument: the flag package prints the usage on
    standard error and the process exits with status 0; nothing is
    fetched or written. *)
Theorem main_help_exits_0 w rest :
  w_args w = "-h" :: rest ->
  run w = (0%Z, upd_stderr (fun e => e ++ bytes_of (Flag.usage_text (w_prog w)) ++ newline) w).
Proof.
  intros Ha. unfold run, main. go_unfold. by rewrite (Flag.Parse_help_exits_0 w rest Ha).
Qed.

(** C17: A malformed or unknown flag: the message and the usage go to
    standard error and the process exits with status 2. *)
Theorem main_flag_error_exits_2 w m :
  Flag.parse_args (w_args w) = Some (Flag.PErr (Flag.ErrMsg m)) ->
  run w = (2%Z, upd_stderr (fun e => e ++ bytes_of (Flag.usage_text (w_prog w)) ++ newline)
                  (upd_stderr (fun e => e ++ bytes_of m ++ newline) w)).
Proof.
  intros Ha. unfold run, main. go_unfold. by rewrite (Flag.Parse_error_exits_2 w m Ha).
Qed.

(** C18: Flags after the URL are positional arguments: [webfetch URL -o f]
    has three positional arguments and ends with "Url must be specified"
    and status 1, without writing [f]. *)
Theorem main_flag_after_url_is_positional w u rest :
  w_args w = u :: rest -> Flag.not_flag u = true -> rest <> [] ->
  run w = (1%Z, upd_stdout (fun out => out ++ bytes_of "Url must be specified" ++ newline) w).
Proof.
  intros Hargs Hu Hr. unfold run, main. go_unfold.
  rewrite (Flag.Parse_ok w EmptyString (u :: rest)).
  - simpl. unfold Flag.NArg. by destruct rest.
  - unfold Flag.parse_args. rewrite Hargs. by apply Flag.parse_stops_at_positional.
Qed.

End Runs.

(** ** Runs with Go's [net/url]

    The theorems above hold for every [UrlLib]; these use the model of
    [url.ParseRequestURI] in [GoUrl.v]. *)

#[local] Opaque getWriter writeContents.

(** C13: An absolute path passes [url.ParseRequestURI] although it is no
    absolute URL; [http.Get] then refuses its empty scheme without any
    traffic, after [getWriter] has created the output file: the run exits
    with status 1 and leaves an empty file. *)
Theorem main_request_path_fails_after_create w p :
  w_args w = ["-o"; p; "/index.html"] -> p <> EmptyString ->
  w_fs w !! p = None -> w_create_err w p = None ->
  exists w', run w = (1%Z, w') /\
    w_fs w' = <[p := EFile []]> (w_fs w) /\
    w_trace w' = w_trace w ++ [EvStat p] ++ [EvCreate p] /\
    w_stdout w' = w_stdout w ++ bytes_of ("Valid output file. Using file " ++ p ++ nl)%string ++
      bytes_of ("Get " ++ quote "/index.html" ++ ": unsupported protocol scheme " ++
                quote EmptyString)%string ++ newline.
Proof.
  intros Ha Hne Hfs Hce. unfold run, main. go_unfold.
  rewrite (Flag.Parse_ok w p ["/index.html"]).
  2:{ unfold Flag.parse_args. by rewrite Ha. }
  simpl. rewrite getWriter_new_file by done. simpl.
  eexists. split; [reflexivity|]. simpl. split_and!; [done|by rewrite <- app_assoc|].
  by rewrite <- app_assoc.
Qed.

(** ** Witnesses: the theorems at the invocations of the spec *)

Lemma main_writes_body_to_stdout_witness :
  let w := demo_world ["http://example.com/"] ∅ in
  exists w', run w = (0%Z, w') /\
    w_stdout w' = w_stdout w ++ bytes_of "Empty output. Using os.Stdout" ++ newline ++
                  bytes_of "hello" ++ newline /\
    w_fs w' = w_fs w /\ w_open_bodies w' = w_open_bodies w /\
    count_gets (w_trace w') = S (count_gets (w_trace w)).
Proof.
  intros w. apply (main_writes_body_to_stdout (H:=GoUrlLib) w "http://example.com/" demo_url); reflexivity.
Defined.

Lemma main_writes_body_to_new_file_witness :
  let w := demo_world ["-o"; "out.txt"; "http://example.com/"] ∅ in
  exists w', run w = (0%Z, w') /\
    w_fs w' = <["out.txt" := EFile (bytes_of "hello" ++ newline)]> (w_fs w) /\
    w_stdout w' = w_stdout w ++ bytes_of ("Valid output file. Using file " ++ "out.txt" ++ nl)%string /\
    w_open_bodies w' = w_open_bodies w /\ w_open_files w' = "out.txt" :: w_open_files w /\
    count_gets (w_trace w') = S (count_gets (w_trace w)).
Proof.
  intros w. apply (main_writes_body_to_new_file (H:=GoUrlLib) w "out.txt" "http://example.com/" demo_url);
    try reflexivity; [discriminate | simpl; lia].
Defined.

Lemma main_refuses_existing_output_witness :
  let w := demo_world ["-o"; "out.txt"; "http://example.com/"] {["out.txt" := EFile (bytes_of "old")]} in
  run w = (1%Z, upd_stdout (fun out => out ++ bytes_of "The file already exists" ++ newline)
                  (log (EvStat "out.txt") w)).
Proof.
  intros w. apply (main_refuses_existing_output (H:=GoUrlLib) w "out.txt" "http://example.com/" demo_url
                     (EFile (bytes_of "old"))); [reflexivity | discriminate | reflexivity | reflexivity].
Defined.

Lemma main_rejects_argument_count_witness :
  let w := demo_world [] ∅ in
  run w = (1%Z, upd_stdout (fun out => out ++ bytes_of "Url must be specified" ++ newline) w).
Proof. intros w. apply (main_rejects_argument_count (H:=GoUrlLib) w EmptyString []); [reflexivity | simpl; lia]. Defined.

Lemma main_rejects_invalid_url_witness :
  let w := demo_world ["http://a b/"] ∅ in
  run w = (1%Z, upd_stdout (fun out => out ++ bytes_of ("parse " ++ quote "http://a b/" ++
             ": invalid character " ++ quote " " ++ " in host name")%string ++ newline) w).
Proof. intros w. apply (main_rejects_invalid_url (H:=GoUrlLib) w EmptyString "http://a b/"); reflexivity. Defined.

Lemma main_transport_error_leaves_empty_file_witness :
  let w := demo_world ["-o"; "out.txt"; "http://nowhere.example/"] ∅ in
  exists w', run w = (1%Z, w') /\
    w_fs w' = <["out.txt" := EFile []]> (w_fs w) /\ w_open_files w' = "out.txt" :: w_open_files w /\
    w_stdout w' = w_stdout w ++ bytes_of ("Valid output file. Using file " ++ "out.txt" ++ nl)%string ++
                  bytes_of ("Get " ++ quote "http://nowhere.example/" ++ ": " ++
                            "dial tcp: lookup failed")%string ++ newline.
Proof.
  intros w.
  apply (main_transport_error_leaves_empty_file (H:=GoUrlLib) w "out.txt" "http://nowhere.example/"
           (GoUrl.mkURL "http" EmptyString None "nowhere.example" "/" EmptyString false false));
    try reflexivity. discriminate.
Defined.

Lemma main_read_error_leaves_body_open_witness :
  let w := demo_world ["http://broken.example/"] ∅ in
  exists w', run w = (1%Z, w') /\
    w_open_bodies w' = S (w_open_bodies w) /\
    w_stdout w' = w_stdout w ++ bytes_of "Empty output. Using os.Stdout" ++ newline ++
                  bytes_of "unexpected EOF" ++ newline /\
    w_fs w' = w_fs w.
Proof.
  intros w.
  apply (main_read_error_leaves_body_open (H:=GoUrlLib) w "http://broken.example/"
           (GoUrl.mkURL "http" EmptyString None "broken.example" "/" EmptyString false false)
           (bytes_of "hel")); reflexivity.
Defined.

Lemma main_request_path_fails_after_create_witness :
  let w := demo_world ["-o"; "out.txt"; "/index.html"] ∅ in
  exists w', run w = (1%Z, w') /\
    w_fs w' = <["out.txt" := EFile []]> (w_fs w) /\
    w_trace w' = w_trace w ++ [EvStat "out.txt"] ++ [EvCreate "out.txt"] /\
    w_stdout w' = w_stdout w ++ bytes_of ("Valid output file. Using file " ++ "out.txt" ++ nl)%string ++
      bytes_of ("Get " ++ quote "/index.html" ++ ": unsupported protocol scheme " ++
                quote EmptyString)%string ++ newline.
Proof.
  intros w. apply (main_request_path_fails_after_create w "out.txt"); try reflexivity. discriminate.
Defined.

Lemma writeContents_fresh_writer_witness :
  let w := demo_world [] ∅ in
  exists w', writeContents (bytes_of "hello") (Bufio.NewWriter SinkStdout) w = (Done tt, w') /\
    sink_contents w' SinkStdout = sink_contents w SinkStdout ++ bytes_of "hello" ++ newline /\
    frame_except SinkStdout w w'.
Proof. intros w. apply writeContents_fresh_writer. simpl. done. Defined.

Lemma getWriter_create_error_witness :
  let w := readonly_world ["-o"; "out.txt"; "http://example.com/"] in
  getWriter "out.txt" w =
  (Exited 1%Z, upd_stdout (fun o => o ++ bytes_of ("open " ++ "out.txt" ++ ": " ++ "permission denied")%string ++ newline)
                 (log (EvCreate "out.txt") (log (EvStat "out.txt") w))).
Proof. intros w. apply getWriter_create_error; [discriminate | reflexivity | reflexivity]. Defined.

Lemma main_help_exits_0_witness :
  let w := demo_world ["-h"; "http://example.com/"] ∅ in
  run w = (0%Z, upd_stderr (fun e => e ++ bytes_of (Flag.usage_text (w_prog w)) ++ newline) w).
Proof. intros w. apply (main_help_exits_0 (H:=GoUrlLib) w ["http://example.com/"]). reflexivity. Defined.

Lemma main_flag_error_exits_2_witness :
  let w := demo_world ["-x"; "http://example.com/"] ∅ in
  run w = (2%Z, upd_stderr (fun e => e ++ bytes_of (Flag.usage_text (w_prog w)) ++ newline)
                  (upd_stderr (fun e => e ++ bytes_of "flag provided but not defined: -x" ++ newline) w)).
Proof. intros w. apply (main_flag_error_exits_2 (H:=GoUrlLib)). reflexivity. Defined.

Lemma main_flag_after_url_is_positional_witness :
  let w := demo_world ["http://example.com/"; "-o"; "out.txt"] ∅ in
  run w = (1%Z, upd_stdout (fun out => out ++ bytes_of "Url must be specified" ++ newline) w).
Proof.
  intros w. apply (main_flag_after_url_is_positional (H:=GoUrlLib) w "http://example.com/" ["-o"; "out.txt"]);
    [reflexivity | reflexivity | discriminate].
Defined.

Lemma run_keeps_existing_entries_witness :
  let w := demo_world ["-o"; "out.txt"; "http://example.com/"] {["out.txt" := EFile (bytes_of "old")]} in
  w_fs w !! "out.txt" = Some (EFile (bytes_of "old")) /\
  w_fs (snd (run w)) !! "out.txt" = Some (EFile (bytes_of "old")).
Proof.
  intros w. split; [reflexivity|]. apply (run_keeps_existing_entries (H:=GoUrlLib)). reflexivity.
Defined.

Lemma run_changes_only_output_path_witness :
  let w := demo_world ["-o"; "out.txt"; "http://example.com/"] ∅ in
  w_fs (snd (run w)) !! "out.txt" <> w_fs w !! "out.txt" /\
  exists pos, Flag.parse_args (w_args w) = Some (Flag.POk "out.txt" pos).
Proof.
  intros w. assert (Hq : w_fs (snd (run w)) !! "out.txt" <> w_fs w !! "out.txt") by (vm_compute; discriminate).
  split; [exact Hq|]. exact (run_changes_only_output_path (H:=GoUrlLib) w "out.txt" Hq).
Defined.

Lemma main_full_disk_exits_0_witness :
  let w := small_disk_world ["-o"; "out.txt"; "http://example.com/"] in
  exists w', run w = (0%Z, w') /\
    w_fs w' = <["out.txt" := EFile (firstn 3 (bytes_of "hello" ++ newline))]> (w_fs w).
Proof.
  intros w. apply (main_full_disk_exits_0 (H:=GoUrlLib) w "out.txt" "http://example.com/" demo_url);
    try reflexivity; [discriminate | vm_compute; lia..].
Defined.

Lemma run_exit_0_means_fetched_witness :
  let w := demo_world ["http://example.com/"] ∅ in
  fst (run w) = 0%Z /\
  (Flag.parse_args (w_args w) = Some (Flag.PErr Flag.ErrHelp) \/ run_ok w (snd (run w))).
Proof.
  intros w. assert (H0 : fst (run w) = 0%Z) by reflexivity.
  split; [exact H0|]. exact (run_exit_0_means_fetched (H:=GoUrlLib) w H0).
Defined.
